(** * amazon-fba-backend: the PA-API request signer and the search relay

    A shallow embedding of [src/app.py].

    - [SHA256], [HMAC]: what [hashlib.sha256] and [hmac.new(_, _, hashlib.sha256)]
      compute (FIPS 180-4, RFC 2104), over bytes held as integers [0..255].
    - [Json]: the values [json.loads] produces and [json.dumps] prints, with the
      Python operations the handler applies to them ([in], [x[k]], [.get],
      truthiness).
    - [Signer]: [sign_paapi_request], local variable by local variable.
    - [Handler]: [search_products], as a program over two effects: reading the
      clock and posting to the upstream API.

    Text.  A Python [str] is held as the [string] of its UTF-8 bytes, so
    [s.encode('utf-8')] only changes the view from characters to integers.
    Numbers in JSON values are integers; binary floating point is left out.
    What the handler prints on the console is not part of the model. *)

From Stdlib Require Import ZArith NArith String Ascii Bool Lia DecimalString List.
Import ListNotations.

Local Open Scope string_scope.
Local Open Scope list_scope.
Local Open Scope Z_scope.

(* ------------------------------------------------------------------ *)
(** ** Bytes and hexadecimal text *)

Module Bytes.

(** A [bytes] object: each element is meant to lie in [0..255]. *)
Definition bytes := list Z.

(** [s.encode('utf-8')]. *)
Definition encode_utf8 (s : string) : bytes :=
  map (fun c => Z.of_N (N_of_ascii c)) (list_ascii_of_string s).

Definition hex_digit (n : Z) : ascii :=
  nth (Z.to_nat n) (list_ascii_of_string "0123456789abcdef") "0"%char.

Definition hex_byte (b : Z) : string :=
  String (hex_digit ((b / 16) mod 16)) (String (hex_digit (b mod 16)) EmptyString).

(** [b.hex()], the text [hexdigest()] returns. *)
Fixpoint hex (b : bytes) : string :=
  match b with
  | [] => ""
  | x :: r => (hex_byte x ++ hex r)%string
  end.

(** One character of lowercase hexadecimal. *)
Definition is_lower_hex (c : ascii) : bool :=
  let n := N_of_ascii c in
  ((48 <=? n) && (n <=? 57) || (97 <=? n) && (n <=? 102))%N.

End Bytes.

(* ------------------------------------------------------------------ *)
(** ** SHA-256 (FIPS 180-4) on 32-bit words kept in [Z] *)

Module SHA256.
Import Bytes.

Definition wrap32 (x : Z) : Z := x mod 2 ^ 32.
Definition add32 (x y : Z) : Z := wrap32 (x + y).

Definition rotr (n x : Z) : Z :=
  Z.lor (Z.shiftr x n) (wrap32 (Z.shiftl x (32 - n))).
Definition shr (n x : Z) : Z := Z.shiftr x n.
Definition not32 (x : Z) : Z := Z.lxor x (2 ^ 32 - 1).

Definition Ch (x y z : Z) : Z := Z.lxor (Z.land x y) (Z.land (not32 x) z).
Definition Maj (x y z : Z) : Z :=
  Z.lxor (Z.lxor (Z.land x y) (Z.land x z)) (Z.land y z).
Definition bsig0 (x : Z) : Z := Z.lxor (Z.lxor (rotr 2 x) (rotr 13 x)) (rotr 22 x).
Definition bsig1 (x : Z) : Z := Z.lxor (Z.lxor (rotr 6 x) (rotr 11 x)) (rotr 25 x).
Definition ssig0 (x : Z) : Z := Z.lxor (Z.lxor (rotr 7 x) (rotr 18 x)) (shr 3 x).
Definition ssig1 (x : Z) : Z := Z.lxor (Z.lxor (rotr 17 x) (rotr 19 x)) (shr 10 x).

(** The sixty-four round constants, eight to a row. *)
Definition K : list Z :=
  (0x428a2f98 :: 0x71374491 :: 0xb5c0fbcf :: 0xe9b5dba5 ::
   0x3956c25b :: 0x59f111f1 :: 0x923f82a4 :: 0xab1c5ed5 :: nil) ++
  (0xd807aa98 :: 0x12835b01 :: 0x243185be :: 0x550c7dc3 ::
   0x72be5d74 :: 0x80deb1fe :: 0x9bdc06a7 :: 0xc19bf174 :: nil) ++
  (0xe49b69c1 :: 0xefbe4786 :: 0x0fc19dc6 :: 0x240ca1cc ::
   0x2de92c6f :: 0x4a7484aa :: 0x5cb0a9dc :: 0x76f988da :: nil) ++
  (0x983e5152 :: 0xa831c66d :: 0xb00327c8 :: 0xbf597fc7 ::
   0xc6e00bf3 :: 0xd5a79147 :: 0x06ca6351 :: 0x14292967 :: nil) ++
  (0x27b70a85 :: 0x2e1b2138 :: 0x4d2c6dfc :: 0x53380d13 ::
   0x650a7354 :: 0x766a0abb :: 0x81c2c92e :: 0x92722c85 :: nil) ++
  (0xa2bfe8a1 :: 0xa81a664b :: 0xc24b8b70 :: 0xc76c51a3 ::
   0xd192e819 :: 0xd6990624 :: 0xf40e3585 :: 0x106aa070 :: nil) ++
  (0x19a4c116 :: 0x1e376c08 :: 0x2748774c :: 0x34b0bcb5 ::
   0x391c0cb3 :: 0x4ed8aa4a :: 0x5b9cca4f :: 0x682e6ff3 :: nil) ++
  (0x748f82ee :: 0x78a5636f :: 0x84c87814 :: 0x8cc70208 ::
   0x90befffa :: 0xa4506ceb :: 0xbef9a3f7 :: 0xc67178f2 :: nil).

(** The eight working variables, also the chaining value between blocks. *)
Record state := State
  { sa : Z; sb : Z; sc : Z; sd : Z; se : Z; sf : Z; sg : Z; sh : Z }.

Definition init : state :=
  State 0x6a09e667 0xbb67ae85 0x3c6ef372 0xa54ff53a
        0x510e527f 0x9b05688c 0x1f83d9ab 0x5be0cd19.

(** Big-endian bytes of a word and back. *)
Definition be32 (w : Z) : bytes :=
  [ (w / 2 ^ 24) mod 256; (w / 2 ^ 16) mod 256; (w / 2 ^ 8) mod 256; w mod 256 ].

Fixpoint words (b : bytes) : list Z :=
  match b with
  | b0 :: b1 :: b2 :: b3 :: r =>
      (b0 * 2 ^ 24 + b1 * 2 ^ 16 + b2 * 2 ^ 8 + b3) :: words r
  | _ => []
  end.

(** Padding: the bit 1, zeros up to 56 modulo 64, the bit length on 8 bytes. *)
Definition pad (m : bytes) : bytes :=
  let n := Z.of_nat (length m) in
  m ++ [128] ++ repeat 0 (Z.to_nat ((55 - n) mod 64))
    ++ be32 ((n * 8 / 2 ^ 32) mod 2 ^ 32) ++ be32 ((n * 8) mod 2 ^ 32).

(** The message schedule: [fuel] more words after the sixteen of the block. *)
Fixpoint schedule (fuel : nat) (w : list Z) : list Z :=
  match fuel with
  | O => w
  | S f =>
      let i := length w in
      let x := add32 (add32 (ssig1 (nth (i - 2) w 0)) (nth (i - 7) w 0))
                     (add32 (ssig0 (nth (i - 15) w 0)) (nth (i - 16) w 0)) in
      schedule f (w ++ [x])
  end.

Definition round (s : state) (kw : Z * Z) : state :=
  let (k, w) := kw in
  let t1 := add32 (add32 (add32 (sh s) (bsig1 (se s)))
                         (add32 (Ch (se s) (sf s) (sg s)) k)) w in
  let t2 := add32 (bsig0 (sa s)) (Maj (sa s) (sb s) (sc s)) in
  State (add32 t1 t2) (sa s) (sb s) (sc s) (add32 (sd s) t1) (se s) (sf s) (sg s).

Definition compress (h : state) (block : list Z) : state :=
  let s := fold_left round (combine K (schedule 48 block)) h in
  State (add32 (sa h) (sa s)) (add32 (sb h) (sb s)) (add32 (sc h) (sc s))
        (add32 (sd h) (sd s)) (add32 (se h) (se s)) (add32 (sf h) (sf s))
        (add32 (sg h) (sg s)) (add32 (sh h) (sh s)).

(** The blocks of sixteen words; [fuel] bounds their number. *)
Fixpoint blocks (fuel : nat) (w : list Z) : list (list Z) :=
  match fuel, w with
  | S f, _ :: _ => firstn 16 w :: blocks f (skipn 16 w)
  | _, _ => []
  end.

Definition digest (s : state) : bytes :=
  be32 (sa s) ++ be32 (sb s) ++ be32 (sc s) ++ be32 (sd s) ++
  be32 (se s) ++ be32 (sf s) ++ be32 (sg s) ++ be32 (sh s).

(** [hashlib.sha256(m).digest()]. *)
Definition sha256 (m : bytes) : bytes :=
  let w := words (pad m) in
  digest (fold_left compress (blocks (length w) w) init).

(** [hashlib.sha256(m).hexdigest()]. *)
Definition sha256_hex (m : bytes) : string := hex (sha256 m).

End SHA256.

(* ------------------------------------------------------------------ *)
(** ** HMAC-SHA256 (RFC 2104), as [hmac.new(key, msg, hashlib.sha256)] *)

Module HMAC.
Import Bytes SHA256.

Definition block_size : nat := 64.

(** Keys longer than a block are hashed first; then zero-padded to a block. *)
Definition block_key (key : bytes) : bytes :=
  let k := if (block_size <? length key)%nat then sha256 key else key in
  k ++ repeat 0 (block_size - length k).

Definition xor_with (p : Z) (k : bytes) : bytes := map (fun b => Z.lxor b p) k.

(** [hmac.new(key, msg, hashlib.sha256).digest()]. *)
Definition hmac_sha256 (key msg : bytes) : bytes :=
  let k := block_key key in
  sha256 (xor_with 0x5c k ++ sha256 (xor_with 0x36 k ++ msg)).

(** [hmac.new(key, msg, hashlib.sha256).hexdigest()]. *)
Definition hmac_sha256_hex (key msg : bytes) : string := hex (hmac_sha256 key msg).

End HMAC.

(* ------------------------------------------------------------------ *)
(** ** Text helpers *)

Module Text.
Import Bytes.
Local Open Scope string_scope.
Local Open Scope Z_scope.

(** The characters no literal of this file holds. *)
Definition dquote : string := String (ascii_of_nat 34) EmptyString.
Definition newline : string := String (ascii_of_nat 10) EmptyString.

(** [sep.join(parts)]. *)
Fixpoint join (sep : string) (parts : list string) : string :=
  match parts with
  | [] => ""
  | [p] => p
  | p :: rest => p ++ sep ++ join sep rest
  end.

(** [str(n)] for an [int]. *)
Definition str_of_int (n : Z) : string := NilZero.string_of_int (Z.to_int n).

(** ['%02d'] and the like: decimal, zero-filled on the left up to [width]. *)
Definition zero_pad (width : nat) (n : N) : string :=
  let d := NilZero.string_of_uint (N.to_uint n) in
  string_of_list_ascii (repeat "0"%char (width - String.length d)) ++ d.

(** The code points of a text: UTF-8 decoding of its bytes. *)
Fixpoint code_points (b : bytes) : list Z :=
  match b with
  | [] => []
  | b0 :: r =>
      if b0 <? 0x80 then b0 :: code_points r
      else if b0 <? 0xE0 then
        match r with
        | b1 :: r1 => ((b0 mod 32) * 64 + b1 mod 64) :: code_points r1
        | _ => []
        end
      else if b0 <? 0xF0 then
        match r with
        | b1 :: b2 :: r2 =>
            ((b0 mod 16) * 4096 + (b1 mod 64) * 64 + b2 mod 64) :: code_points r2
        | _ => []
        end
      else
        match r with
        | b1 :: b2 :: b3 :: r3 =>
            ((b0 mod 8) * 262144 + (b1 mod 64) * 4096 + (b2 mod 64) * 64 + b3 mod 64)
              :: code_points r3
        | _ => []
        end
  end.

(** A continuation byte of UTF-8, [10xxxxxx]. *)
Definition is_continuation (c : ascii) : bool :=
  let n := N_of_ascii c in ((128 <=? n) && (n <? 192))%N.

(** The characters of a text, each with its continuation bytes: what iterating
    over a [str] yields. *)
Fixpoint chars (s : string) : list string :=
  match s with
  | EmptyString => []
  | String c r =>
      match chars r with
      | h :: t =>
          match h with
          | String c' _ =>
              if is_continuation c' then String c h :: t
              else String c EmptyString :: h :: t
          | EmptyString => String c EmptyString :: t
          end
      | [] => [String c EmptyString]
      end
  end.

(** Every character of a text passes [p]. *)
Fixpoint all_chars (p : ascii -> bool) (s : string) : bool :=
  match s with
  | EmptyString => true
  | String c r => p c && all_chars p r
  end.

(** [needle in haystack] for two texts. *)
Fixpoint is_substring (needle haystack : string) : bool :=
  prefix needle haystack ||
  match haystack with
  | EmptyString => false
  | String _ r => is_substring needle r
  end.

End Text.

(* ------------------------------------------------------------------ *)
(** ** JSON values and [json.dumps] *)

Module Json.
Import Bytes Text.
Local Open Scope string_scope.
Local Open Scope Z_scope.

(** What [json.loads] builds.  A [dict] keeps its keys in insertion order; a
    parsed object has no key twice (the last occurrence wins when parsing). *)
#[warnings="-register-all"]
Inductive json : Type :=
| JNull
| JBool (b : bool)
| JInt (n : Z)
| JStr (s : string)
| JList (items : list json)
| JDict (fields : list (string * json)).

(** [d[k]] inside a dict: the value stored under [k], if any. *)
Fixpoint lookup (k : string) (fields : list (string * json)) : option json :=
  match fields with
  | [] => None
  | (k', v) :: rest => if String.eqb k k' then Some v else lookup k rest
  end.

(** Four lowercase hexadecimal digits, ['{0:04x}']. *)
Definition hex4 (n : Z) : string :=
  hex_byte (n / 256) ++ hex_byte n.

(** One character under [ensure_ascii]: printable ASCII stays, quote and
    backslash and the named controls get their short form, all else a
    [\uXXXX] escape (a surrogate pair above the basic plane). *)
Definition escape_char (n : Z) : string :=
  if n =? 34 then "\" ++ dquote
  else if n =? 92 then "\\"
  else if n =? 10 then "\n"
  else if n =? 13 then "\r"
  else if n =? 9 then "\t"
  else if n =? 12 then "\f"
  else if n =? 8 then "\b"
  else if (32 <=? n) && (n <=? 126) then String (ascii_of_N (Z.to_N n)) ""
  else if n <? 0x10000 then "\u" ++ hex4 n
  else
    let m := n - 0x10000 in
    "\u" ++ hex4 (Z.lor 0xd800 (Z.land (Z.shiftr m 10) 0x3ff)) ++
    "\u" ++ hex4 (Z.lor 0xdc00 (Z.land m 0x3ff)).

(** [json.encoder.encode_basestring_ascii]: the quoted form of a text. *)
Definition encode_basestring_ascii (s : string) : string :=
  dquote ++ String.concat "" (map escape_char (code_points (encode_utf8 s))) ++ dquote.

(** [json.dumps(v, separators=(item_sep, key_sep))], with the other options at
    their defaults ([ensure_ascii=True], no indentation, keys unsorted). *)
Fixpoint dumps_with (item_sep key_sep : string) (v : json) : string :=
  match v with
  | JNull => "null"
  | JBool true => "true"
  | JBool false => "false"
  | JInt n => str_of_int n
  | JStr s => encode_basestring_ascii s
  | JList items =>
      "[" ++ join item_sep (map (dumps_with item_sep key_sep) items) ++ "]"
  | JDict fields =>
      "{" ++ join item_sep
               (map (fun kv => encode_basestring_ascii (fst kv) ++ key_sep
                               ++ dumps_with item_sep key_sep (snd kv)) fields)
          ++ "}"
  end.

(** [json.dumps(v)]: the default separators are [', '] and [': ']. *)
Definition dumps (v : json) : string := dumps_with ", " ": " v.

(** [json.dumps(v, separators=(',', ':'))]. *)
Definition dumps_compact (v : json) : string := dumps_with "," ":" v.

(** [bool(v)]: what [if v] and [not v] test. *)
Definition truthy (v : json) : bool :=
  match v with
  | JNull => false
  | JBool b => b
  | JInt n => negb (n =? 0)
  | JStr s => negb (String.eqb s "")
  | JList items => match items with [] => false | _ => true end
  | JDict fields => match fields with [] => false | _ => true end
  end.

(** [v == JStr k], for [k in list]. *)
Definition is_str (k : string) (v : json) : bool :=
  match v with
  | JStr s => String.eqb k s
  | _ => false
  end.

End Json.

(* ------------------------------------------------------------------ *)
(** ** Python values at run time: exceptions and the operations on JSON *)

Module Py.
Import Bytes Text Json.
Local Open Scope string_scope.
Local Open Scope Z_scope.

(** What [response.json()] does with the body of an answer.  When the body is
    not JSON, requests 2.27 and later raise their own [JSONDecodeError], which
    is a [RequestException] as well as a [json.JSONDecodeError]; earlier
    versions raise [json.JSONDecodeError] alone.  The flag says which. *)
Inductive json_outcome :=
| Decoded (j : json)
| Undecodable (as_request_exception : bool).

(** A [requests.Response], as far as the handler looks at it. *)
Record http_response := Response
  { status_code : Z;
    body_json : json_outcome }.

(** The exceptions that can travel through the handler.  A
    [RequestException] carries [e.response]. *)
Inductive exn :=
| TypeError
| KeyError
| IndexError
| AttributeError
| RequestException (response : option http_response)
| JSONDecodeError (as_request_exception : bool).

Definition is_RequestException (e : exn) : bool :=
  match e with
  | RequestException _ => true
  | JSONDecodeError b => b
  | _ => false
  end.

Definition is_JSONDecodeError (e : exn) : bool :=
  match e with
  | JSONDecodeError _ => true
  | _ => false
  end.

(** [e.response] of a [RequestException]. *)
Definition response_of (e : exn) : option http_response :=
  match e with
  | RequestException r => r
  | _ => None
  end.

(** A computation that returns or raises. *)
Inductive result (A : Type) :=
| Ok (a : A)
| Err (e : exn).
Arguments Ok {A} a.
Arguments Err {A} e.

Definition rbind {A B} (r : result A) (f : A -> result B) : result B :=
  match r with
  | Ok a => f a
  | Err e => Err e
  end.

(** [k in v]. *)
Definition py_in (k : string) (v : json) : result bool :=
  match v with
  | JDict fields => Ok (match lookup k fields with Some _ => true | None => false end)
  | JList items => Ok (existsb (is_str k) items)
  | JStr s => Ok (is_substring k s)
  | JNull | JBool _ | JInt _ => Err TypeError
  end.

(** [v[k]] for a text [k]. *)
Definition py_getitem (v : json) (k : string) : result json :=
  match v with
  | JDict fields =>
      match lookup k fields with
      | Some x => Ok x
      | None => Err KeyError
      end
  | _ => Err TypeError
  end.

(** [v[0]]. *)
Definition py_getitem0 (v : json) : result json :=
  match v with
  | JList items =>
      match items with
      | x :: _ => Ok x
      | [] => Err IndexError
      end
  | JStr s =>
      match chars s with
      | c :: _ => Ok (JStr c)
      | [] => Err IndexError
      end
  | JDict _ => Err KeyError
  | JNull | JBool _ | JInt _ => Err TypeError
  end.

(** [v.get(k, default)]. *)
Definition py_get (v : json) (k : string) (default : json) : result json :=
  match v with
  | JDict fields =>
      match lookup k fields with
      | Some x => Ok x
      | None => Ok default
      end
  | _ => Err AttributeError
  end.

(** The values [for x in v] runs through. *)
Definition py_iter (v : json) : result (list json) :=
  match v with
  | JList items => Ok items
  | JDict fields => Ok (map (fun kv => JStr (fst kv)) fields)
  | JStr s => Ok (map JStr (chars s))
  | JNull | JBool _ | JInt _ => Err TypeError
  end.

End Py.

(* ------------------------------------------------------------------ *)
(** ** The clock *)

Module Clock.
Import Text.
Local Open Scope string_scope.

(** A naive [datetime.datetime], as [utcnow()] returns it. *)
Record datetime := Datetime
  { year : N; month : N; day : N;
    hour : N; minute : N; second : N; microsecond : N }.

(** One [strftime] directive.  [%Y] is written with four digits, as the
    library documents it (every year from 1000 on prints so anyway). *)
Definition directive (c : ascii) (t : datetime) : string :=
  if Ascii.eqb c "Y" then zero_pad 4 (year t)
  else if Ascii.eqb c "m" then zero_pad 2 (month t)
  else if Ascii.eqb c "d" then zero_pad 2 (day t)
  else if Ascii.eqb c "H" then zero_pad 2 (hour t)
  else if Ascii.eqb c "M" then zero_pad 2 (minute t)
  else if Ascii.eqb c "S" then zero_pad 2 (second t)
  else String "%" (String c "").

(** [t.strftime(fmt)] for formats made of the directives above and plain text. *)
Fixpoint strftime (fmt : string) (t : datetime) : string :=
  match fmt with
  | String "%" (String c rest) => directive c t ++ strftime rest t
  | String c rest => String c (strftime rest t)
  | EmptyString => ""
  end.

End Clock.

(* ------------------------------------------------------------------ *)
(** ** [sign_paapi_request]: the request signer *)

Module Signer.
Import Bytes SHA256 HMAC Text Json Py Clock.
Local Open Scope string_scope.

(** The returned dict: header names and values, in insertion order. *)
Definition header_map := list (string * string).

(** [h[name]]. *)
Fixpoint header (name : string) (h : header_map) : option string :=
  match h with
  | [] => None
  | (n, v) :: rest => if String.eqb name n then Some v else header name rest
  end.

Section Locals.

(** [t] is what [datetime.datetime.utcnow()] returned; the rest are the
    arguments.  Each definition is the local variable of the same name. *)
Variable t : datetime.
Variables access_key secret_key host region service api_path : string.
Variable payload : json.

Definition amz_date : string := strftime "%Y%m%dT%H%M%SZ" t.
Definition date_stamp : string := strftime "%Y%m%d" t.

Definition canonical_uri : string := api_path.
Definition canonical_querystring : string := "".
Definition canonical_headers : string :=
  "host:" ++ host ++ newline ++ "x-amz-date:" ++ amz_date ++ newline.
Definition signed_headers : string := "host;x-amz-date".

Definition payload_str : string := dumps_compact payload.
Definition payload_hash : string := sha256_hex (encode_utf8 payload_str).

Definition canonical_request : string :=
  join newline
    [ "POST";
      canonical_uri;
      canonical_querystring;
      canonical_headers;
      signed_headers;
      payload_hash ].

Definition algorithm : string := "AWS4-HMAC-SHA256".
Definition credential_scope : string :=
  join "/" [date_stamp; region; service; "aws4_request"].
Definition string_to_sign : string :=
  join newline
    [ algorithm;
      amz_date;
      credential_scope;
      sha256_hex (encode_utf8 canonical_request) ].

(** The inner helper [sign_key(key, msg)]. *)
Definition sign_key (key : bytes) (msg : string) : bytes :=
  hmac_sha256 key (encode_utf8 msg).

Definition k_date : bytes := sign_key (encode_utf8 ("AWS4" ++ secret_key)) date_stamp.
Definition k_region : bytes := sign_key k_date region.
Definition k_service : bytes := sign_key k_region service.
Definition k_signing : bytes := sign_key k_service "aws4_request".

Definition signature : string :=
  hmac_sha256_hex k_signing (encode_utf8 string_to_sign).

Definition authorization_header : string :=
  algorithm ++ " " ++
  "Credential=" ++ access_key ++ "/" ++ credential_scope ++ ", " ++
  "SignedHeaders=" ++ signed_headers ++ ", " ++
  "Signature=" ++ signature.

(** The dict the function returns. *)
Definition headers : header_map :=
  [ ("Content-Type", "application/json; charset=utf-8");
    ("X-Amz-Date", amz_date);
    ("X-Amz-Target", service ++ ".SearchItems");
    ("Authorization", authorization_header);
    ("Host", host) ].

End Locals.

End Signer.

(* ------------------------------------------------------------------ *)
(** ** Programs with effects: the clock and the upstream call *)

Module Effects.
Import Json Py Clock Signer.
Local Open Scope string_scope.

(** The arguments of [requests.post(url, headers=..., data=...)]. *)
Record http_request := Request
  { url : string;
    request_headers : header_map;
    data : string }.

(** What [requests.post] does: it raises, or it returns the answer. *)
Inductive post_result :=
| PostRaised (e : exn)
| PostReturned (r : http_response).

(** A program: it returns, raises, reads the clock or posts a request. *)
Inductive prog (A : Type) : Type :=
| Ret (a : A)
| Raise (e : exn)
| Utcnow (k : datetime -> prog A)
| Post (req : http_request) (k : post_result -> prog A).
Arguments Ret {A} a.
Arguments Raise {A} e.
Arguments Utcnow {A} k.
Arguments Post {A} req k.

Fixpoint bind {A B} (p : prog A) (f : A -> prog B) : prog B :=
  match p with
  | Ret a => f a
  | Raise e => Raise e
  | Utcnow k => Utcnow (fun t => bind (k t) f)
  | Post req k => Post req (fun r => bind (k r) f)
  end.

(** [try: p  except Exception as e: h e]. *)
Fixpoint catch {A} (p : prog A) (h : exn -> prog A) : prog A :=
  match p with
  | Ret a => Ret a
  | Raise e => h e
  | Utcnow k => Utcnow (fun t => catch (k t) h)
  | Post req k => Post req (fun r => catch (k r) h)
  end.

(** A pure step that may raise. *)
Definition lift {A} (r : result A) : prog A :=
  match r with
  | Ok a => Ret a
  | Err e => Raise e
  end.

(** The world a program runs in: the time the clock shows and how the
    upstream answers. *)
Record World := MkWorld
  { clock : datetime;
    upstream : http_request -> post_result }.

(** What a run did to the outside. *)
Inductive event :=
| ClockRead
| Posted (req : http_request).

(** Run [p] in [w]: its outcome and the effects in order. *)
Fixpoint run {A} (w : World) (p : prog A) : result A * list event :=
  match p with
  | Ret a => (Ok a, [])
  | Raise e => (Err e, [])
  | Utcnow k => let (r, tr) := run w (k (clock w)) in (r, ClockRead :: tr)
  | Post req k => let (r, tr) := run w (k (upstream w req)) in (r, Posted req :: tr)
  end.

End Effects.

Declare Scope prog_scope.
Delimit Scope prog_scope with prog.
Notation "x <- p ;; k" := (Effects.bind p (fun x => k))
  (at level 61, p at next level, right associativity) : prog_scope.
Notation "p ;; k" := (Effects.bind p (fun _ => k))
  (at level 61, right associativity) : prog_scope.
Declare Scope result_scope.
Delimit Scope result_scope with result.
Notation "x <- r ;; k" := (Py.rbind r (fun x => k))
  (at level 61, r at next level, right associativity) : result_scope.

(* ------------------------------------------------------------------ *)
(** ** The signer as a program, and the [/api/search] handler *)

Module Handler.
Import Bytes Text Json Py Clock Signer Effects.
Local Open Scope string_scope.
Local Open Scope Z_scope.

(** [sign_paapi_request(access_key, secret_key, host, region, service,
    api_path, payload)].  The keys come from [os.getenv] and are [None] when
    unset; concatenating [None] to a text raises [TypeError], after the clock
    has been read. *)
Definition sign_paapi_request (access_key secret_key : option string)
    (host region service api_path : string) (payload : json) : prog header_map :=
  Utcnow (fun t =>
    match secret_key, access_key with
    | Some sk, Some ak => Ret (headers t ak sk host region service api_path payload)
    | _, _ => Raise TypeError
    end).

(** The module-level configuration, read from the environment at start. *)
Record Env := MkEnv
  { ASSOCIATE_TAG : option string;
    ACCESS_KEY_ID : option string;
    SECRET_ACCESS_KEY : option string;
    HOST : string;
    REGION : string }.

Definition SERVICE : string := "ProductAdvertisingAPI".

(** A text or [None] as a JSON value. *)
Definition json_of_getenv (v : option string) : json :=
  match v with
  | Some s => JStr s
  | None => JNull
  end.

(** The body of an answer of the handler: [jsonify] of a value, or of an
    [{"error": ...}] dict whose message is an f-string ending in an
    exception or in a value (their rendering as text is left symbolic). *)
Inductive body :=
| Jsonify (j : json)
| ErrorWithException (prefix : string) (e : exn)
| ErrorWithValue (prefix : string) (v : json).

(** An answer: the body and the HTTP status. *)
Definition reply := (body * Z)%type.

(** [response.raise_for_status()]. *)
Definition raise_for_status (r : http_response) : prog unit :=
  if (400 <=? status_code r) && (status_code r <? 600)
  then Raise (RequestException (Some r))
  else Ret tt.

(** [response.json()]. *)
Definition response_json (r : http_response) : prog json :=
  match body_json r with
  | Decoded j => Ret j
  | Undecodable b => Raise (JSONDecodeError b)
  end.

(** Lines 146-150: whether the first listing of [item] is prime eligible. *)
Definition is_prime_eligible (item : json) : result bool :=
  (has_offers <- py_in "Offers" item ;;
   if has_offers then
     offers <- py_getitem item "Offers" ;;
     has_listings <- py_in "Listings" offers ;;
     if has_listings then
       listings <- py_getitem offers "Listings" ;;
       if truthy listings then
         first_listing <- py_getitem0 listings ;;
         flag <- py_get first_listing "IsPrimeEligible" (JBool false) ;;
         Ok (truthy flag)
       else Ok false
     else Ok false
   else Ok false)%result.

(** Lines 145-155: the loop over the items, [filtered_items] at its end. *)
Fixpoint filter_items (prime_only : json) (items : list json) : result (list json) :=
  match items with
  | [] => Ok []
  | item :: rest =>
      (eligible <- is_prime_eligible item ;;
       kept <- filter_items prime_only rest ;;
       if truthy prime_only && negb eligible then Ok kept
       else Ok (item :: kept))%result
  end.

(** Lines 143-155: [filtered_items] for an upstream answer. *)
Definition filtered_items (prime_only api_response : json) : result (list json) :=
  (has_result <- py_in "SearchResult" api_response ;;
   if has_result then
     search_result <- py_getitem api_response "SearchResult" ;;
     has_items <- py_in "Items" search_result ;;
     if has_items then
       items <- py_getitem search_result "Items" ;;
       items <- py_iter items ;;
       filter_items prime_only items
     else Ok []
   else Ok [])%result.

(** Line 157: the success answer. *)
Definition success (items : list json) : reply :=
  (Jsonify (JDict [ ("Items", JList items);
                    ("TotalFilteredCount", JInt (Z.of_nat (length items))) ]),
   200).

Definition connect_failure (e : exn) : reply :=
  (ErrorWithException "Failed to connect to Amazon API or unhandled API error: " e, 500).

(** Lines 159-169: [except requests.exceptions.RequestException as e].  An
    exception raised in here leaves the handler. *)
Definition on_request_exception (e : exn) : prog reply :=
  match response_of e with
  | Some r =>
      match body_json r with
      | Decoded error_details =>
          (has_errors <- lift (py_in "Errors" error_details) ;;
           if has_errors then
             errors <- lift (py_getitem error_details "Errors") ;;
             first <- lift (py_getitem0 errors) ;;
             message <- lift (py_getitem first "Message") ;;
             Ret (ErrorWithValue "Amazon API Error: " message, 500)
           else Ret (connect_failure e))%prog
      | Undecodable _ => Ret (connect_failure e)
      end
  | None => Ret (connect_failure e)
  end.

(** The three [except] clauses, tried in order. *)
Definition on_exception (e : exn) : prog reply :=
  if is_RequestException e then on_request_exception e
  else if is_JSONDecodeError e then
    Ret (Jsonify (JDict [("error",
           JStr "Invalid JSON response from Amazon API. Please check backend logs.")]), 500)
  else Ret (ErrorWithException "An unexpected server error occurred: " e, 500).

(** Lines 122-134: the upstream request. *)
Definition payload_of (env : Env) (keywords : json) : json :=
  JDict
    [ ("Keywords", keywords);
      ("SearchIndex", JStr "All");
      ("PartnerTag", json_of_getenv (ASSOCIATE_TAG env));
      ("PartnerType", JStr "Associates");
      ("ItemCount", JInt 10);
      ("Resources",
        JList [ JStr "Images.Primary.Medium";
                JStr "ItemInfo.Title";
                JStr "Offers.Listings.Price";
                JStr "Offers.Listings.IsPrimeEligible" ]) ].

Definition api_path : string := "/paapi5/searchitems".
Definition api_endpoint (env : Env) : string := "https://" ++ HOST env ++ api_path.

(** [search_products()], with [data] what [request.get_json()] returned.  A
    [Raise] at the end is an exception that leaves the handler. *)
Definition search_products (env : Env) (data : json) : prog reply :=
  (keywords <- lift (py_get data "keywords" JNull) ;;
   prime_only <- lift (py_get data "primeOnly" (JBool true)) ;;
   if negb (truthy keywords) then
     Ret (Jsonify (JDict [("error", JStr "Keywords are required.")]), 400)
   else
     let payload := payload_of env keywords in
     catch
       (headers <- sign_paapi_request (ACCESS_KEY_ID env) (SECRET_ACCESS_KEY env)
                     (HOST env) (REGION env) SERVICE api_path payload ;;
        posted <- Post (Request (api_endpoint env) headers (dumps payload)) Ret ;;
        response <- match posted with
                    | PostRaised e => Raise e
                    | PostReturned r => Ret r
                    end ;;
        raise_for_status response ;;
        api_response <- response_json response ;;
        items <- lift (filtered_items prime_only api_response) ;;
        Ret (success items))
       on_exception)%prog.

(** A program that neither reads the clock nor posts. *)
Definition effect_free {A} (p : prog A) : Prop :=
  match p with
  | Ret _ | Raise _ => True
  | Utcnow _ | Post _ _ => False
  end.

End Handler.

(* ------------------------------------------------------------------ *)
(** ** The specification's own words, to compare the code with *)

Module Spec.
Import Bytes HMAC Json.
Local Open Scope string_scope.

(** Section 4.1, step 7: the derivation chain, on binary digests. *)
Definition HMAC (key : bytes) (msg : string) : bytes :=
  hmac_sha256 key (encode_utf8 msg).
Definition kDate (secretKey dateStamp : string) : bytes :=
  HMAC (encode_utf8 "AWS4" ++ encode_utf8 secretKey)%list dateStamp.
Definition kRegion (secretKey dateStamp region : string) : bytes :=
  HMAC (kDate secretKey dateStamp) region.
Definition kService (secretKey dateStamp region service : string) : bytes :=
  HMAC (kRegion secretKey dateStamp region) service.
Definition kSigning (secretKey dateStamp region service : string) : bytes :=
  HMAC (kService secretKey dateStamp region service) "aws4_request".

(** Section 8, property 6.  [Offers.Listings] of an item, when it has one. *)
Definition listings (item : json) : option json :=
  match item with
  | JDict fields =>
      match lookup "Offers" fields with
      | Some (JDict offers) => lookup "Listings" offers
      | _ => None
      end
  | _ => None
  end.

(** [IsPrimeEligible] of the first listing, when it is there and a boolean. *)
Definition first_listing_flag (item : json) : option bool :=
  match listings item with
  | Some (JList (JDict listing :: _)) =>
      match lookup "IsPrimeEligible" listing with
      | Some (JBool b) => Some b
      | _ => None
      end
  | _ => None
  end.

(** "whose first listing has [IsPrimeEligible == true]". *)
Definition first_listing_is_prime (item : json) : bool :=
  match first_listing_flag item with
  | Some true => true
  | _ => false
  end.

(** "lacks an [Offers.Listings] entry": there is no [Offers.Listings] to
    look into (whatever the item or its [Offers] is), or it is a list with no
    listing in it. *)
Definition lacks_listings (item : json) : bool :=
  match listings item with
  | None => true
  | Some (JList []) => true
  | Some _ => false
  end.

(** "has a boolean [IsPrimeEligible] on its first listing". *)
Definition has_boolean_flag (item : json) : bool :=
  match first_listing_flag item with
  | Some _ => true
  | None => false
  end.

(** The items property 6 speaks of. *)
Definition item_as_described (item : json) : bool :=
  lacks_listings item || has_boolean_flag item.

(** "the upstream response lacks a [SearchResult] key or a
    [SearchResult.Items] key": whatever the response is, it has no
    [SearchResult], or its [SearchResult], whatever that is, has no [Items]. *)
Definition lacks_items_key (api_response : json) : bool :=
  match api_response with
  | JDict fields =>
      match lookup "SearchResult" fields with
      | None => true
      | Some (JDict search_result) =>
          match lookup "Items" search_result with
          | None => true
          | Some _ => false
          end
      | Some _ => true
      end
  | _ => true
  end.

End Spec.

(* ------------------------------------------------------------------ *)
(** ** Concrete inputs *)

Module Examples.
Import Json Py Clock Signer Effects Handler.
Local Open Scope string_scope.

(** 2024-01-01T00:00:00Z. *)
Definition new_year_2024 : datetime := Datetime 2024 1 1 0 0 0 0.

Definition shoes : json := JDict [("Keywords", JStr "shoes")].

Definition env : Env :=
  MkEnv (Some "tag-21") (Some "AKIDEXAMPLE") (Some "secret")
        "webservices.amazon.in" "eu-west-1".

Definition item (asin : string) (prime : bool) : json :=
  JDict [ ("ASIN", JStr asin);
          ("Offers",
            JDict [("Listings", JList [JDict [("IsPrimeEligible", JBool prime)]])]) ].

Definition bare_item (asin : string) : json := JDict [("ASIN", JStr asin)].

Definition three_items : list json :=
  [item "B01" true; item "B02" false; bare_item "B03"].

Definition answer (api_response : json) : http_request -> post_result :=
  fun _ => PostReturned (Response 200 (Decoded api_response)).

(** The upstream answers with the three items. *)
Definition world : World :=
  MkWorld new_year_2024
    (answer (JDict [("SearchResult", JDict [("Items", JList three_items)])])).

(** The same clock, but the upstream cannot be reached. *)
Definition world_down : World :=
  MkWorld new_year_2024 (fun _ => PostRaised (RequestException None)).

(** The upstream answers without results. *)
Definition world_empty : World :=
  MkWorld new_year_2024 (answer (JDict [("Errors", JList [])])).

Definition search_shoes : json := JDict [("keywords", JStr "shoes")].

End Examples.

(* ------------------------------------------------------------------ *)
(** ** Module start: configuration, diagnostics and the credentials check *)

Module Startup.
Import Text Json Handler.
Local Open Scope string_scope.

(** [os.environ] once [load_dotenv()] has run: names and values. *)
Definition environ := list (string * string).

(** [os.getenv(name)]: the value, or [None]. *)
Fixpoint getenv (env : environ) (name : string) : option string :=
  match env with
  | [] => None
  | (n, v) :: rest => if String.eqb name n then Some v else getenv rest name
  end.

(** [os.getenv(name, default)]. *)
Definition getenv_default (env : environ) (name default : string) : string :=
  match getenv env name with
  | Some v => v
  | None => default
  end.

(** Lines 19-23: the module-level configuration. *)
Definition load_config (env : environ) : Env :=
  MkEnv (getenv env "ASSOCIATE_TAG")
        (getenv env "ACCESS_KEY_ID")
        (getenv env "SECRET_ACCESS_KEY")
        (getenv_default env "HOST" "webservices.amazon.in")
        (getenv_default env "REGION" "eu-west-1").

(** [bool(v)] for a text or [None]. *)
Definition is_set (v : option string) : bool :=
  match v with
  | Some s => negb (String.eqb s "")
  | None => false
  end.

(** [f"{v}"] for a text or [None]. *)
Definition format_getenv (v : option string) : string :=
  match v with
  | Some s => s
  | None => "None"
  end.

(** [s[:n]] and [s[-n:]] for [n > 0], counted in characters. *)
Definition first_chars (n : nat) (s : string) : string :=
  String.concat "" (firstn n (chars s)).
Definition last_chars (n : nat) (s : string) : string :=
  String.concat "" (skipn (length (chars s) - n) (chars s)).

(** Line 30: what is printed about the access key. *)
Definition access_key_line (access_key : option string) : string :=
  match access_key with
  | Some k =>
      if is_set access_key
      then "ACCESS_KEY_ID: " ++ first_chars 5 k ++ "..." ++ last_chars 5 k
      else "None"
  | None => "None"
  end.

(** Line 31: what is printed about the secret key. *)
Definition secret_key_line (secret_key : option string) : string :=
  if is_set secret_key then "SECRET_ACCESS_KEY: ***** (masked)" else "None".

(** Lines 27-34: the diagnostic lines, one per [print]. *)
Definition diagnostics (env : Env) : list string :=
  [ "--- Environment Variable Check ---";
    "ASSOCIATE_TAG: " ++ format_getenv (ASSOCIATE_TAG env);
    access_key_line (ACCESS_KEY_ID env);
    secret_key_line (SECRET_ACCESS_KEY env);
    "HOST: " ++ HOST env;
    "REGION: " ++ REGION env;
    "----------------------------------" ].

(** Line 40: [not all([ASSOCIATE_TAG, ACCESS_KEY_ID, SECRET_ACCESS_KEY])]. *)
Definition credentials_missing (env : Env) : bool :=
  negb (is_set (ASSOCIATE_TAG env) && is_set (ACCESS_KEY_ID env)
        && is_set (SECRET_ACCESS_KEY env)).

Definition rule : string := string_of_list_ascii (repeat "="%char 80).

(** Lines 41-46: the banner; the module goes on loading after it. *)
Definition banner : list string :=
  [ newline ++ rule;
    "CRITICAL ERROR: Missing Amazon API credentials in environment variables.";
    "Please set ASSOCIATE_TAG, ACCESS_KEY_ID, and SECRET_ACCESS_KEY in your .env file (locally)";
    "or in your hosting provider's environment variables (for deployment).";
    "The application will likely fail to make Amazon API calls without these.";
    rule ++ newline ].

(** Everything the module prints while it loads. *)
Definition startup_output (env : Env) : list string :=
  (diagnostics env ++ if credentials_missing env then banner else [])%list.

End Startup.

(* ------------------------------------------------------------------ *)
(** ** Readings of the handler used to state its properties *)

Module Reading.
Import Json Py Effects Handler.
Local Open Scope string_scope.

(** Whether the loop of lines 145-155 appends [item], when its test of the
    item does not raise. *)
Definition keeps (prime_only item : json) : bool :=
  negb (truthy prime_only)
  || match is_prime_eligible item with
     | Ok eligible => eligible
     | Err _ => false
     end.

(** Whether lines 146-150 raise on [item]. *)
Definition raises (item : json) : bool :=
  match is_prime_eligible item with
  | Ok _ => false
  | Err _ => true
  end.

(** A value on which [k in v] raises [TypeError]. *)
Definition not_a_container (v : json) : bool :=
  match v with
  | JNull | JBool _ | JInt _ => true
  | JStr _ | JList _ | JDict _ => false
  end.

(** [200 <= status < 400] or [status >= 600]: [raise_for_status] returns. *)
Definition status_passes (status : Z) : bool :=
  negb ((400 <=? status)%Z && (status <? 600)%Z).

(** [data.get('primeOnly', True)] on the fields of an object. *)
Definition prime_only_of (fields : list (string * json)) : json :=
  match lookup "primeOnly" fields with
  | Some v => v
  | None => JBool true
  end.

(** The request of line 139, for the keys, the time and the keywords. *)
Definition upstream_request (env : Env) (access_key secret_key : string)
    (t : Clock.datetime) (keywords : json) : http_request :=
  Request (api_endpoint env)
    (Signer.headers t access_key secret_key (HOST env) (REGION env) SERVICE api_path
       (payload_of env keywords))
    (dumps (payload_of env keywords)).

(** A time as [utcnow()] gives it, with a year of four digits. *)
Definition four_digit_time (t : Clock.datetime) : bool :=
  ((1000 <=? Clock.year t) && (Clock.year t <=? 9999)
   && (Clock.month t <=? 12) && (Clock.day t <=? 31)
   && (Clock.hour t <=? 23) && (Clock.minute t <=? 59)
   && (Clock.second t <=? 59))%N.

(** Lines 144 and 145 without the body of the loop: the test
    ['SearchResult' in api_response and 'Items' in api_response['SearchResult']]
    and, where it holds, the items [api_response['SearchResult']['Items']]
    the [for] statement runs over. *)
Definition items_test (api_response : json) : result (list json) :=
  (has_result <- py_in "SearchResult" api_response ;;
   if has_result then
     search_result <- py_getitem api_response "SearchResult" ;;
     has_items <- py_in "Items" search_result ;;
     if has_items then
       items <- py_getitem search_result "Items" ;;
       py_iter items
     else Ok []
   else Ok [])%result.

(** Whether lines 144 and 145 raise on [api_response], before any item is
    looked at. *)
Definition items_test_raises (api_response : json) : bool :=
  match items_test api_response with
  | Ok _ => false
  | Err _ => true
  end.

(** The posts of a run. *)
Fixpoint posts (trace : list event) : list http_request :=
  match trace with
  | [] => []
  | ClockRead :: rest => posts rest
  | Posted req :: rest => req :: posts rest
  end.

End Reading.

(* ------------------------------------------------------------------ *)
(** ** More concrete inputs *)

Module Cases.
Import Json Py Clock Effects Handler.
Local Open Scope string_scope.

(** A process environment with the three credentials and no host or region. *)
Definition production : Startup.environ :=
  [ ("ASSOCIATE_TAG", "tag-21");
    ("ACCESS_KEY_ID", "AKIDEXAMPLE");
    ("SECRET_ACCESS_KEY", "secret") ].

(** The same without the secret key. *)
Definition no_secret : Env :=
  MkEnv (Some "tag-21") (Some "AKIDEXAMPLE") None "webservices.amazon.in" "eu-west-1".

(** The upstream refuses with the given JSON body. *)
Definition refusal (status : Z) (error_details : json) : http_response :=
  Response status (Decoded error_details).

Definition throttled : http_response :=
  refusal 429
    (JDict [("Errors",
              JList [JDict [ ("Code", JStr "TooManyRequests");
                             ("Message", JStr "The request was denied due to request throttling.") ]])]).

Definition world_with (r : http_response) : World :=
  MkWorld Examples.new_year_2024 (fun _ => PostReturned r).

(** An item whose [Offers] is [null]. *)
Definition broken_item : json := JDict [("ASIN", JStr "B04"); ("Offers", JNull)].

(** An item whose flag is a text. *)
Definition text_flag_item : json :=
  JDict [("Offers",
           JDict [("Listings", JList [JDict [("IsPrimeEligible", JStr "false")]])])].

End Cases.

Import Bytes SHA256 HMAC Text Json Py Clock Signer Effects Handler.

Arguments sha256 : simpl never.
Arguments hmac_sha256 : simpl never.
Arguments dumps_with : simpl never.
Arguments strftime : simpl never.

(* ================================================================== *)
(** * Properties *)

(** ** Known answers for the digests *)

Example sha256_abc :
  sha256_hex (encode_utf8 "abc")
  = "ba7816bf8f01cfea414140de5dae2223b00361a396177a9cb410ff61f20015ad".
Proof. vm_compute. reflexivity. Qed.

Example sha256_empty :
  sha256_hex []
  = "e3b0c44298fc1c149afbf4c8996fb92427ae41e4649b934ca495991b7852b855".
Proof. vm_compute. reflexivity. Qed.

(** RFC 4231, test cases 1 and 6 (a key longer than a block). *)
Example hmac_rfc4231_1 :
  hmac_sha256_hex (repeat 11 20) (encode_utf8 "Hi There")
  = "b0344c61d8db38535ca8afceaf0bf12b881dc200c9833da726e9376c2e32cff7".
Proof. vm_compute. reflexivity. Qed.

Example hmac_rfc4231_6 :
  hmac_sha256_hex (repeat 170 131)
    (encode_utf8 "Test Using Larger Than Block-Size Key - Hash Key First")
  = "60e431591ee0b67f0d8a26aacbf5b77f8e0bc6213728c5140546040f0ee37f54".
Proof. vm_compute. reflexivity. Qed.

(** ** Hexadecimal text *)

Lemma hex_digit_lower (n : Z) :
  0 <= n < 16 -> is_lower_hex (hex_digit n) = true.
Proof.
  intros H. unfold hex_digit.
  remember (Z.to_nat n) as k eqn:Ek.
  assert (Hk : (k < 16)%nat) by lia. clear Ek H.
  do 16 (destruct k as [| k]; [reflexivity |]). lia.
Qed.

Lemma all_chars_app (p : ascii -> bool) (a b : string) :
  all_chars p (a ++ b) = all_chars p a && all_chars p b.
Proof.
  induction a as [| c a IH]; simpl; [reflexivity |].
  rewrite IH. apply andb_assoc.
Qed.

Lemma string_length_app (a b : string) :
  String.length (a ++ b) = (String.length a + String.length b)%nat.
Proof. induction a as [| c a IH]; simpl; [reflexivity | now rewrite IH]. Qed.

Lemma hex_length (b : bytes) : String.length (hex b) = (2 * length b)%nat.
Proof.
  induction b as [| x r IH]; [reflexivity |].
  cbn [hex length]. rewrite string_length_app, IH. simpl. lia.
Qed.

Lemma hex_lower (b : bytes) : all_chars is_lower_hex (hex b) = true.
Proof.
  induction b as [| x r IH]; [reflexivity |].
  cbn [hex]. rewrite all_chars_app, IH. unfold hex_byte. cbn [all_chars].
  rewrite !hex_digit_lower; [reflexivity | |]; apply Z.mod_pos_bound; lia.
Qed.

(** ** The digest is always 32 bytes long *)

Lemma sha256_length (m : bytes) : length (sha256 m) = 32%nat.
Proof. reflexivity. Qed.

Lemma hmac_sha256_length (key msg : bytes) : length (hmac_sha256 key msg) = 32%nat.
Proof. apply sha256_length. Qed.

Lemma encode_utf8_app (a b : string) :
  encode_utf8 (a ++ b) = (encode_utf8 a ++ encode_utf8 b)%list.
Proof.
  unfold encode_utf8. induction a as [| c a IH]; simpl; [reflexivity |].
  now rewrite IH.
Qed.

Lemma encode_utf8_inj (a b : string) : encode_utf8 a = encode_utf8 b -> a = b.
Proof.
  unfold encode_utf8. revert b.
  induction a as [| x a IH]; intros [| y b]; simpl; intros H;
    try discriminate; [reflexivity |].
  injection H as Hxy Hab. f_equal; [| now apply IH].
  apply N2Z.inj in Hxy.
  rewrite <- (ascii_N_embedding x), <- (ascii_N_embedding y). now rewrite Hxy.
Qed.

(** ** Text *)

Lemma append_assoc (a b c : string) : ((a ++ b) ++ c = a ++ (b ++ c))%string.
Proof. induction a as [| x a IH]; simpl; [reflexivity | now rewrite IH]. Qed.

Lemma append_nil_r (a : string) : (a ++ "")%string = a.
Proof. induction a as [| x a IH]; simpl; [reflexivity | now rewrite IH]. Qed.

Lemma prefix_append (a b : string) : prefix a (a ++ b) = true.
Proof.
  induction a as [| x a IH]; simpl; [now destruct b |].
  destruct (ascii_dec x x) as [_ | N]; [exact IH | now elim N].
Qed.

(** ** The clock's two texts *)

Lemma amz_date_format (t : datetime) :
  amz_date t =
  (zero_pad 4 (year t) ++ zero_pad 2 (month t) ++ zero_pad 2 (day t) ++ "T" ++
   zero_pad 2 (hour t) ++ zero_pad 2 (minute t) ++ zero_pad 2 (second t) ++ "Z")%string.
Proof.
  unfold amz_date. cbv [strftime directive Ascii.eqb Bool.eqb]. reflexivity.
Qed.

Lemma date_stamp_format (t : datetime) :
  date_stamp t =
  (zero_pad 4 (year t) ++ zero_pad 2 (month t) ++ zero_pad 2 (day t))%string.
Proof.
  unfold date_stamp. cbv [strftime directive Ascii.eqb Bool.eqb].
  now rewrite append_nil_r.
Qed.

(** ** The signer as a program: one clock read, then the headers *)

Lemma sign_paapi_request_run (w : World) (ak sk host region service path : string)
    (payload : json) :
  run w (sign_paapi_request (Some ak) (Some sk) host region service path payload)
  = (Ok (headers (clock w) ak sk host region service path payload), [ClockRead]).
Proof. reflexivity. Qed.

Lemma signature_length (t : datetime) (sk host region service path : string)
    (payload : json) :
  String.length (signature t sk host region service path payload) = 64%nat.
Proof.
  unfold signature, hmac_sha256_hex. now rewrite hex_length, hmac_sha256_length.
Qed.

Lemma signature_lower_hex (t : datetime) (sk host region service path : string)
    (payload : json) :
  all_chars is_lower_hex (signature t sk host region service path payload) = true.
Proof. unfold signature, hmac_sha256_hex. apply hex_lower. Qed.

Lemma authorization_header_flat (t : datetime)
    (ak sk host region service path : string) (payload : json) :
  authorization_header t ak sk host region service path payload =
  ("AWS4-HMAC-SHA256 Credential=" ++ ak ++ "/" ++ date_stamp t ++ "/" ++ region
     ++ "/" ++ service
     ++ "/aws4_request, SignedHeaders=host;x-amz-date, Signature="
     ++ signature t sk host region service path payload)%string.
Proof.
  unfold authorization_header, credential_scope, algorithm, signed_headers.
  cbn [join]. rewrite !append_assoc. reflexivity.
Qed.

(** ** The claims about the signer *)

(** C2.  Determinism: [sign_paapi_request] reads the clock once and nothing
    else.  In two worlds that show the same time, whatever their upstreams
    do, the same arguments give the same outcome (the same header names and
    values in the same order, or the same exception) and the same effects. *)
Theorem sign_paapi_request_deterministic (w1 w2 : World)
    (access_key secret_key : option string)
    (host region service api_path : string) (payload : json) :
  clock w1 = clock w2 ->
  run w1 (sign_paapi_request access_key secret_key host region service api_path payload)
  = run w2 (sign_paapi_request access_key secret_key host region service api_path payload).
Proof.
  intros Hclock. unfold sign_paapi_request. cbn [run]. rewrite Hclock.
  destruct secret_key as [sk |], access_key as [ak |]; reflexivity.
Qed.

Lemma sign_paapi_request_deterministic_witness :
  Examples.world <> Examples.world_down /\
  run Examples.world
    (sign_paapi_request (Some "AKIDEXAMPLE") (Some "secret") "webservices.amazon.in"
       "eu-west-1" SERVICE api_path Examples.shoes)
  = run Examples.world_down
    (sign_paapi_request (Some "AKIDEXAMPLE") (Some "secret") "webservices.amazon.in"
       "eu-west-1" SERVICE api_path Examples.shoes).
Proof.
  split.
  - intros E.
    assert (H : upstream Examples.world (Request "" [] "")
                = upstream Examples.world_down (Request "" [] ""))
      by now rewrite E.
    discriminate H.
  - apply (sign_paapi_request_deterministic Examples.world Examples.world_down).
    reflexivity.
Defined.

(** The microseconds of the clock do not reach the headers. *)
Lemma headers_ignore_microseconds (y mo d h mi s us1 us2 : N)
    (ak sk host region service path : string) (payload : json) :
  headers (Datetime y mo d h mi s us1) ak sk host region service path payload
  = headers (Datetime y mo d h mi s us2) ak sk host region service path payload.
Proof.
  assert (A : amz_date (Datetime y mo d h mi s us1) = amz_date (Datetime y mo d h mi s us2))
    by reflexivity.
  assert (D : date_stamp (Datetime y mo d h mi s us1)
              = date_stamp (Datetime y mo d h mi s us2)) by reflexivity.
  unfold headers, authorization_header, signature, string_to_sign, canonical_request,
    canonical_headers, credential_scope, k_signing, k_service, k_region, k_date.
  rewrite A, D. reflexivity.
Qed.

(** The derivation chain on the vector of the signing scheme's documentation. *)
Example signing_key_known_answer :
  hex (k_signing (Datetime 2012 2 15 0 0 0 0)
         "wJalrXUtnFEMI/K7MDENG+bPxRfiCYEXAMPLEKEY" "us-east-1" "iam")
  = "f4780e2d9f65fa895f9c67b32ce1baf0b0d8a43505a000a1a9e090d414db404d".
Proof. vm_compute. reflexivity. Qed.

(** C3.  The signing key is the four-step HMAC-SHA256 chain of the
    specification, each step keyed by the binary digest of the one before,
    starting from the UTF-8 bytes of ["AWS4" + secret_key]; the signature is
    the lowercase hexadecimal text of HMAC-SHA256 of the string to sign under
    that key. *)
Theorem signing_key_is_the_hmac_chain (t : datetime)
    (secret_key host region service api_path : string) (payload : json) :
  k_signing t secret_key region service
    = Spec.kSigning secret_key (date_stamp t) region service
  /\ k_signing t secret_key region service
    = hmac_sha256
        (hmac_sha256
           (hmac_sha256
              (hmac_sha256 (encode_utf8 ("AWS4" ++ secret_key))
                           (encode_utf8 (date_stamp t)))
              (encode_utf8 region))
           (encode_utf8 service))
        (encode_utf8 "aws4_request")
  /\ signature t secret_key host region service api_path payload
    = hex (hmac_sha256 (Spec.kSigning secret_key (date_stamp t) region service)
             (encode_utf8 (string_to_sign t host region service api_path payload)))
  /\ all_chars is_lower_hex
       (signature t secret_key host region service api_path payload) = true.
Proof.
  assert (E : k_signing t secret_key region service
              = Spec.kSigning secret_key (date_stamp t) region service).
  { unfold Spec.kSigning, Spec.kService, Spec.kRegion, Spec.kDate, Spec.HMAC.
    unfold k_signing, k_service, k_region, k_date, sign_key.
    now rewrite encode_utf8_app. }
  split; [exact E |]. split; [| split].
  - unfold k_signing, k_service, k_region, k_date, sign_key. reflexivity.
  - unfold signature, hmac_sha256_hex. now rewrite E.
  - apply signature_lower_hex.
Qed.

(** C4.  The canonical request is [POST], the path, an empty query string,
    the two canonical header lines, the signed header names and the payload
    hash, joined by newlines; the string to sign is the algorithm, the full
    timestamp, the credential scope and the hash of the canonical request,
    joined by newlines. *)
Theorem canonical_request_and_string_to_sign (t : datetime)
    (host region service api_path : string) (payload : json) :
  canonical_request t host api_path payload
    = ("POST" ++ newline ++
       api_path ++ newline ++
       "" ++ newline ++
       ("host:" ++ host ++ newline ++ "x-amz-date:" ++ amz_date t ++ newline) ++ newline ++
       "host;x-amz-date" ++ newline ++
       sha256_hex (encode_utf8 (dumps_compact payload)))%string
  /\ string_to_sign t host region service api_path payload
    = ("AWS4-HMAC-SHA256" ++ newline ++
       amz_date t ++ newline ++
       (date_stamp t ++ "/" ++ region ++ "/" ++ service ++ "/aws4_request") ++ newline ++
       sha256_hex (encode_utf8 (canonical_request t host api_path payload)))%string.
Proof.
  split.
  - unfold canonical_request, canonical_uri, canonical_querystring,
      canonical_headers, signed_headers, payload_hash, payload_str.
    cbn [join]. reflexivity.
  - unfold string_to_sign, credential_scope, algorithm. cbn [join]. reflexivity.
Qed.

(** C5.  The [Authorization] header is the algorithm, the credential (access
    key and scope), the signed header names and the signature, which is 64
    characters of lowercase hexadecimal; on the scenario of the specification
    it starts as the specification says. *)
Theorem authorization_header_value :
  (forall (w : World) (access_key secret_key host region service api_path : string)
          (payload : json),
      exists h,
        run w (sign_paapi_request (Some access_key) (Some secret_key)
                 host region service api_path payload) = (Ok h, [ClockRead])
        /\ header "Authorization" h
           = Some ("AWS4-HMAC-SHA256 Credential=" ++ access_key ++ "/"
                   ++ date_stamp (clock w) ++ "/" ++ region ++ "/" ++ service
                   ++ "/aws4_request, SignedHeaders=host;x-amz-date, Signature="
                   ++ signature (clock w) secret_key host region service api_path
                        payload)%string
        /\ String.length
             (signature (clock w) secret_key host region service api_path payload)
           = 64%nat
        /\ all_chars is_lower_hex
             (signature (clock w) secret_key host region service api_path payload)
           = true)
  /\ (forall upstream : http_request -> post_result,
      exists h sig,
        run (MkWorld Examples.new_year_2024 upstream)
            (sign_paapi_request (Some "AKIDEXAMPLE") (Some "secret")
               "webservices.amazon.in" "eu-west-1" "ProductAdvertisingAPI"
               "/paapi5/searchitems" Examples.shoes) = (Ok h, [ClockRead])
        /\ header "Authorization" h
           = Some ("AWS4-HMAC-SHA256 Credential=AKIDEXAMPLE/20240101/eu-west-1/ProductAdvertisingAPI/aws4_request, SignedHeaders=host;x-amz-date, Signature="
                   ++ sig)%string
        /\ String.length sig = 64%nat
        /\ all_chars is_lower_hex sig = true).
Proof.
  split.
  - intros w ak sk host region service path payload.
    eexists. split; [apply sign_paapi_request_run |].
    split; [| split].
    + unfold headers. cbn [header String.eqb Ascii.eqb Bool.eqb].
      now rewrite authorization_header_flat.
    + apply signature_length.
    + apply signature_lower_hex.
  - intros upstream. eexists.
    exists (signature Examples.new_year_2024 "secret" "webservices.amazon.in"
              "eu-west-1" "ProductAdvertisingAPI" "/paapi5/searchitems" Examples.shoes).
    split; [apply sign_paapi_request_run |].
    split; [| split].
    + vm_compute. reflexivity.
    + apply signature_length.
    + apply signature_lower_hex.
Qed.

(** C6.  The returned dict has the five keys [Content-Type], [X-Amz-Date],
    [X-Amz-Target], [Authorization] and [Host] and no other, with the content
    type, the full timestamp, the target [<service>.SearchItems] and the host
    as values. *)
Theorem header_completeness (w : World)
    (access_key secret_key host region service api_path : string) (payload : json) :
  exists h,
    run w (sign_paapi_request (Some access_key) (Some secret_key)
             host region service api_path payload) = (Ok h, [ClockRead])
    /\ map fst h = ["Content-Type"; "X-Amz-Date"; "X-Amz-Target"; "Authorization"; "Host"]
    /\ header "Content-Type" h = Some "application/json; charset=utf-8"
    /\ header "X-Amz-Date" h = Some (strftime "%Y%m%dT%H%M%SZ" (clock w))
    /\ header "X-Amz-Target" h = Some (service ++ ".SearchItems")%string
    /\ header "Authorization" h
       = Some (authorization_header (clock w) access_key secret_key host region
                 service api_path payload)
    /\ header "Host" h = Some host.
Proof.
  eexists. split; [apply sign_paapi_request_run |].
  unfold headers. cbn [map fst header String.eqb Ascii.eqb Bool.eqb].
  split; [reflexivity |]. split; [reflexivity |]. split; [reflexivity |].
  split; [reflexivity |]. split; reflexivity.
Qed.

(** ** Dicts *)

Lemma lookup_app (k : string) (f g : list (string * json)) :
  lookup k (f ++ g) = match lookup k f with
                      | Some v => Some v
                      | None => lookup k g
                      end.
Proof.
  induction f as [| [k' v] f IH]; [reflexivity |].
  cbn [app lookup]. destruct (String.eqb k k'); [reflexivity | exact IH].
Qed.

(** ** The prime filter *)

(** An item without listings is never "first listing prime". *)
Lemma no_listings_not_prime (item : json) :
  Spec.listings item = None \/ Spec.listings item = Some (JList []) ->
  Spec.first_listing_is_prime item = false.
Proof.
  unfold Spec.first_listing_is_prime, Spec.first_listing_flag.
  now intros [-> | ->].
Qed.

(** ** Running programs *)

Lemma outcome_bind {A B} (w : World) (p : prog A) (f : A -> prog B) :
  fst (run w (bind p f))
  = match fst (run w p) with
    | Ok a => fst (run w (f a))
    | Err e => Err e
    end.
Proof.
  induction p as [a | e | k IH | req k IH]; cbn [bind run].
  - reflexivity.
  - reflexivity.
  - specialize (IH (clock w)).
    destruct (run w (bind (k (clock w)) f)), (run w (k (clock w))). exact IH.
  - specialize (IH (upstream w req)).
    destruct (run w (bind (k (upstream w req)) f)), (run w (k (upstream w req))).
    exact IH.
Qed.

Lemma outcome_catch {A} (w : World) (p : prog A) (h : exn -> prog A) :
  fst (run w (catch p h))
  = match fst (run w p) with
    | Ok a => Ok a
    | Err e => fst (run w (h e))
    end.
Proof.
  induction p as [a | e | k IH | req k IH]; cbn [catch run].
  - reflexivity.
  - reflexivity.
  - specialize (IH (clock w)).
    destruct (run w (catch (k (clock w)) h)), (run w (k (clock w))). exact IH.
  - specialize (IH (upstream w req)).
    destruct (run w (catch (k (upstream w req)) h)), (run w (k (upstream w req))).
    exact IH.
Qed.

Lemma fst_let {A} (x : result A * list event) (ev : event) :
  fst (let (r, tr) := x in (r, ev :: tr)) = fst x.
Proof. now destruct x. Qed.

Lemma outcome_lift {A} (w : World) (r : result A) : fst (run w (lift r)) = r.
Proof. now destruct r. Qed.

(** Every answer of the [except] clauses has status 500. *)
Lemma on_exception_status (w : World) (e : exn) (b : body) (status : Z) :
  fst (run w (on_exception e)) = Ok (b, status) -> status = 500.
Proof.
  unfold on_exception, on_request_exception, connect_failure.
  destruct (is_RequestException e).
  - destruct (response_of e) as [r |]; [| now intros [= _ <-]].
    destruct (body_json r) as [error_details | flag]; [| now intros [= _ <-]].
    rewrite outcome_bind, outcome_lift.
    destruct (py_in "Errors" error_details) as [[|] | e1];
      [| now intros [= _ <-] | discriminate].
    rewrite outcome_bind, outcome_lift.
    destruct (py_getitem error_details "Errors") as [errors | e2]; [| discriminate].
    rewrite outcome_bind, outcome_lift.
    destruct (py_getitem0 errors) as [first | e3]; [| discriminate].
    rewrite outcome_bind, outcome_lift.
    destruct (py_getitem first "Message") as [message | e4]; [| discriminate].
    now intros [= _ <-].
  - destruct (is_JSONDecodeError e); now intros [= _ <-].
Qed.

Lemma effect_free_lift {A} (r : result A) : effect_free (lift r).
Proof. now destruct r. Qed.

Lemma effect_free_bind {A B} (p : prog A) (f : A -> prog B) :
  effect_free p -> (forall a, effect_free (f a)) -> effect_free (bind p f).
Proof. destruct p; cbn; intros Hp Hf; try contradiction; [apply Hf | exact I]. Qed.

Lemma effect_free_catch {A} (p : prog A) (h : exn -> prog A) :
  effect_free p -> (forall e, effect_free (h e)) -> effect_free (catch p h).
Proof. destruct p; cbn; intros Hp Hh; try contradiction; [exact I | apply Hh]. Qed.

Lemma effect_free_run {A} (w : World) (p : prog A) :
  effect_free p -> snd (run w p) = [].
Proof. destruct p; cbn; intros Hp; try contradiction; reflexivity. Qed.

Lemma on_exception_effect_free (e : exn) : effect_free (on_exception e).
Proof.
  unfold on_exception, on_request_exception, connect_failure.
  destruct (is_RequestException e).
  - destruct (response_of e) as [r |]; [| exact I].
    destruct (body_json r) as [error_details | flag]; [| exact I].
    apply effect_free_bind; [apply effect_free_lift |].
    intros [|]; [| exact I].
    repeat (apply effect_free_bind; [apply effect_free_lift | intros ?]).
    exact I.
  - destruct (is_JSONDecodeError e); exact I.
Qed.

(** What the handler does once the upstream call has come back. *)
Lemma after_post_effect_free (prime_only : json) (posted : post_result) :
  effect_free
    (catch
       (response <- match posted with
                    | PostRaised e => Raise e
                    | PostReturned r => Ret r
                    end ;;
        raise_for_status response ;;
        api_response <- response_json response ;;
        items <- lift (filtered_items prime_only api_response) ;;
        Ret (success items))%prog
       on_exception).
Proof.
  apply effect_free_catch; [| apply on_exception_effect_free].
  apply effect_free_bind; [now destruct posted |]. intros r.
  apply effect_free_bind.
  { unfold raise_for_status.
    now destruct ((400 <=? status_code r) && (status_code r <? 600)). }
  intros _. apply effect_free_bind.
  { unfold response_json. now destruct (body_json r). }
  intros api_response.
  apply effect_free_bind; [apply effect_free_lift | intros items; exact I].
Qed.

(** With keywords and both keys, the handler reads the clock, then posts one
    request: to the endpoint, with the signed headers, and with
    [json.dumps(payload)] as its body. *)
Lemma search_products_effects (w : World) (env : Env) (fields : list (string * json))
    (keywords : json) (ak sk : string) :
  lookup "keywords" fields = Some keywords ->
  truthy keywords = true ->
  ACCESS_KEY_ID env = Some ak ->
  SECRET_ACCESS_KEY env = Some sk ->
  snd (run w (search_products env (JDict fields)))
  = [ ClockRead;
      Posted (Request (api_endpoint env)
                (headers (clock w) ak sk (HOST env) (REGION env) SERVICE api_path
                   (payload_of env keywords))
                (dumps (payload_of env keywords))) ].
Proof.
  intros Hkw Htruthy Hak Hsk.
  unfold search_products, sign_paapi_request.
  cbn [py_get lift bind]. rewrite Hkw. cbn [lift bind].
  destruct (lookup "primeOnly" fields) as [prime_only |];
    cbn [lift bind]; rewrite Htruthy; cbn [negb]; cbv zeta;
    rewrite Hak, Hsk; cbn [bind catch run].
  - pose proof (effect_free_run w _ (after_post_effect_free prime_only
        (upstream w (Request (api_endpoint env)
           (headers (clock w) ak sk (HOST env) (REGION env) SERVICE api_path
              (payload_of env keywords))
           (dumps (payload_of env keywords)))))) as Hnil.
    cbn [bind catch] in Hnil.
    match goal with |- context [run w ?p] => destruct (run w p) as [r tr] end.
    cbn [snd] in *. now subst tr.
  - pose proof (effect_free_run w _ (after_post_effect_free (JBool true)
        (upstream w (Request (api_endpoint env)
           (headers (clock w) ak sk (HOST env) (REGION env) SERVICE api_path
              (payload_of env keywords))
           (dumps (payload_of env keywords)))))) as Hnil.
    cbn [bind catch] in Hnil.
    match goal with |- context [run w ?p] => destruct (run w p) as [r tr] end.
    cbn [snd] in *. now subst tr.
Qed.

(** ** The claims about the handler *)

(** C8.  A JSON object without [keywords], or with a falsy one (the empty
    text, [null], zero, [false], an empty list or object), is answered with
    status 400 and [{"error": "Keywords are required."}]; the handler is then
    a plain return: the clock is not read, so nothing is signed, and nothing
    is posted. *)
Theorem missing_keywords_rejected (env : Env) (fields : list (string * json)) :
  match lookup "keywords" fields with
  | Some keywords => truthy keywords = false
  | None => True
  end ->
  search_products env (JDict fields)
    = Ret (Jsonify (JDict [("error", JStr "Keywords are required.")]), 400)
  /\ forall w : World,
       run w (search_products env (JDict fields))
       = (Ok (Jsonify (JDict [("error", JStr "Keywords are required.")]), 400), []).
Proof.
  intros Hkw.
  assert (E : search_products env (JDict fields)
              = Ret (Jsonify (JDict [("error", JStr "Keywords are required.")]), 400)).
  { unfold search_products. cbn [py_get].
    destruct (lookup "keywords" fields) as [keywords |];
      destruct (lookup "primeOnly" fields) as [prime_only |];
      cbn [lift bind truthy negb]; try rewrite Hkw; reflexivity. }
  split; [exact E |]. intros w. now rewrite E.
Qed.

Lemma missing_keywords_rejected_witness :
  run Examples.world
      (search_products Examples.env (JDict [("keywords", JStr ""); ("primeOnly", JBool false)]))
  = (Ok (Jsonify (JDict [("error", JStr "Keywords are required.")]), 400), []).
Proof.
  apply (missing_keywords_rejected Examples.env
           [("keywords", JStr ""); ("primeOnly", JBool false)]).
  reflexivity.
Defined.

(** A body that is not an object has no [.get]: the exception leaves the
    handler before the check. *)
Lemma non_object_body_raises (env : Env) (items : list json) :
  search_products env (JList items) = Raise AttributeError
  /\ search_products env JNull = Raise AttributeError.
Proof. split; reflexivity. Qed.

(** C9.  Without a [primeOnly] field the handler is the same program as with
    [primeOnly] set to [true]. *)
Theorem prime_only_defaults_to_true (env : Env) (fields : list (string * json)) :
  lookup "primeOnly" fields = None ->
  search_products env (JDict fields)
  = search_products env (JDict (fields ++ [("primeOnly", JBool true)])).
Proof.
  intros Hnone. unfold search_products. cbn [py_get].
  rewrite !lookup_app, Hnone.
  cbn [lookup String.eqb Ascii.eqb Bool.eqb].
  destruct (lookup "keywords" fields) as [keywords |]; reflexivity.
Qed.

Lemma prime_only_defaults_to_true_witness :
  fst (run Examples.world (search_products Examples.env Examples.search_shoes))
  = fst (run Examples.world
           (search_products Examples.env
              (JDict [("keywords", JStr "shoes"); ("primeOnly", JBool true)])))
  /\ fst (run Examples.world (search_products Examples.env Examples.search_shoes))
     = Ok (success [Examples.item "B01" true]).
Proof.
  split.
  - unfold Examples.search_shoes.
    now rewrite (prime_only_defaults_to_true Examples.env
                   [("keywords", JStr "shoes")] eq_refl).
  - vm_compute. reflexivity.
Defined.

(** On an upstream answer whose [SearchResult] is [null] the membership
    test on [None] raises, and the handler answers 500. *)
Example search_result_null_is_an_error :
  fst (run (MkWorld Examples.new_year_2024
              (Examples.answer (JDict [("SearchResult", JNull)])))
         (search_products Examples.env Examples.search_shoes))
  = Ok (ErrorWithException "An unexpected server error occurred: " TypeError, 500).
Proof. vm_compute. reflexivity. Qed.

(** ** The body that is sent and the payload that is signed *)

Lemma dumps_with_dict (item_sep key_sep : string) (fields : list (string * json)) :
  dumps_with item_sep key_sep (JDict fields)
  = ("{" ++ join item_sep
              (map (fun kv => encode_basestring_ascii (fst kv) ++ key_sep
                              ++ dumps_with item_sep key_sep (snd kv)) fields)
         ++ "}")%string.
Proof. reflexivity. Qed.

Lemma string_of_uint_head (d : Decimal.uint) :
  exists c s, NilZero.string_of_uint d = String c s /\ c <> " "%char.
Proof.
  destruct d; cbn; eexists; eexists; (split; [reflexivity | discriminate]).
Qed.

Lemma str_of_int_head (n : Z) :
  exists c s, str_of_int n = String c s /\ c <> " "%char.
Proof.
  unfold str_of_int. destruct n as [| p | p]; cbn [Z.to_int NilZero.string_of_int].
  - apply string_of_uint_head.
  - apply string_of_uint_head.
  - eexists; eexists; split; [reflexivity | discriminate].
Qed.

(** No JSON text starts with a space. *)
Lemma dumps_with_head (item_sep key_sep : string) (v : json) :
  exists c s, dumps_with item_sep key_sep v = String c s /\ c <> " "%char.
Proof.
  destruct v as [| [|] | n | s | items | fields].
  1-3, 5-7: eexists; eexists; (split; [reflexivity | discriminate]).
  apply str_of_int_head.
Qed.

(** For every payload the handler builds, [json.dumps(payload)], which is
    sent, differs from [json.dumps(payload, separators=(',', ':'))], which is
    hashed and signed: after ["Keywords":] the first has a space. *)
Lemma sent_body_differs_from_signed_payload (env : Env) (keywords : json) :
  encode_utf8 (dumps (payload_of env keywords))
  <> encode_utf8 (payload_str (payload_of env keywords)).
Proof.
  intros H. apply encode_utf8_inj in H. revert H.
  unfold payload_str, dumps_compact, dumps, payload_of.
  rewrite !dumps_with_dict. cbn [map join fst snd].
  change (encode_basestring_ascii "Keywords")
    with (String (ascii_of_nat 34) ("Keywords" ++ dquote))%string.
  cbn [append].
  destruct (dumps_with_head "," ":" keywords) as (c & s & E & Hc).
  rewrite E. cbn [append]. intros H.
  injection H as H. intros. apply Hc. congruence.
Qed.

(** Whenever the handler posts, the body on the wire is not the byte string
    whose hash the [Authorization] header of the same request signs. *)
Lemma posted_body_is_not_the_signed_one (w : World) (env : Env)
    (fields : list (string * json)) (keywords : json) (ak sk : string) :
  lookup "keywords" fields = Some keywords ->
  truthy keywords = true ->
  ACCESS_KEY_ID env = Some ak ->
  SECRET_ACCESS_KEY env = Some sk ->
  exists req,
    snd (run w (search_products env (JDict fields))) = [ClockRead; Posted req]
    /\ request_headers req
       = headers (clock w) ak sk (HOST env) (REGION env) SERVICE api_path
           (payload_of env keywords)
    /\ encode_utf8 (data req)
       <> encode_utf8 (payload_str (payload_of env keywords)).
Proof.
  intros Hkw Htruthy Hak Hsk. eexists.
  split; [apply (search_products_effects w env fields keywords ak sk); assumption |].
  split; [reflexivity |]. cbn [data].
  apply sent_body_differs_from_signed_payload.
Qed.

(** C1, on the request for "shoes".  The handler posts one request; its body
    is [json.dumps(payload)] with the default separators, 14 bytes longer than
    the compact form that [sign_paapi_request] hashed, and with another
    SHA-256 digest than the payload hash in the signed canonical request. *)
Theorem request_body_is_not_the_signed_payload :
  exists req,
    snd (run Examples.world (search_products Examples.env Examples.search_shoes))
      = [ClockRead; Posted req]
    /\ request_headers req
       = headers Examples.new_year_2024 "AKIDEXAMPLE" "secret"
           "webservices.amazon.in" "eu-west-1" SERVICE api_path
           (payload_of Examples.env (JStr "shoes"))
    /\ data req = dumps (payload_of Examples.env (JStr "shoes"))
    /\ encode_utf8 (data req)
       <> encode_utf8 (payload_str (payload_of Examples.env (JStr "shoes")))
    /\ length (encode_utf8 (data req))
       = (length (encode_utf8 (payload_str (payload_of Examples.env (JStr "shoes"))))
          + 14)%nat
    /\ sha256_hex (encode_utf8 (data req))
       <> payload_hash (payload_of Examples.env (JStr "shoes")).
Proof.
  eexists.
  split.
  { apply (search_products_effects Examples.world Examples.env
             [("keywords", JStr "shoes")] (JStr "shoes") "AKIDEXAMPLE" "secret");
      reflexivity. }
  split; [reflexivity |]. split; [reflexivity |]. cbn [data].
  split; [apply sent_body_differs_from_signed_payload |].
  split; [vm_compute; reflexivity |].
  vm_compute. discriminate.
Qed.

(* ================================================================== *)
(** * Further properties of the code *)

Import Reading.

(** ** The loop of lines 145-155 on arbitrary items *)

Lemma filter_items_cons (prime_only item : json) (rest : list json) :
  filter_items prime_only (item :: rest)
  = match is_prime_eligible item with
    | Ok eligible =>
        match filter_items prime_only rest with
        | Ok kept =>
            Ok (if truthy prime_only && negb eligible then kept else item :: kept)
        | Err e => Err e
        end
    | Err e => Err e
    end.
Proof.
  cbn [filter_items]. destruct (is_prime_eligible item) as [eligible | e];
    cbn [rbind]; [| reflexivity].
  destruct (filter_items prime_only rest) as [kept | e]; cbn [rbind];
    [| reflexivity].
  now destruct (truthy prime_only && negb eligible).
Qed.

Lemma keeps_spec (prime_only item : json) (eligible : bool) :
  is_prime_eligible item = Ok eligible ->
  keeps prime_only item = negb (truthy prime_only && negb eligible).
Proof.
  intros E. unfold keeps. rewrite E.
  now destruct (truthy prime_only), eligible.
Qed.

Lemma filter_items_total (prime_only : json) (items : list json) :
  forallb (fun item => negb (raises item)) items = true ->
  filter_items prime_only items = Ok (filter (keeps prime_only) items).
Proof.
  induction items as [| item rest IH]; [reflexivity |].
  cbn [forallb]. intros H. apply andb_true_iff in H as [Hitem Hrest].
  rewrite filter_items_cons, (IH Hrest). cbn [filter].
  unfold raises in Hitem.
  destruct (is_prime_eligible item) as [eligible | e] eqn:E; [| discriminate].
  rewrite (keeps_spec prime_only item eligible E).
  now destruct (truthy prime_only && negb eligible).
Qed.

Lemma filter_items_returns (prime_only : json) (items kept : list json) :
  filter_items prime_only items = Ok kept ->
  forallb (fun item => negb (raises item)) items = true.
Proof.
  revert kept. induction items as [| item rest IH]; [reflexivity |].
  intros kept. rewrite filter_items_cons. cbn [forallb]. unfold raises at 1.
  destruct (is_prime_eligible item) as [eligible | e]; [| discriminate].
  destruct (filter_items prime_only rest) as [kept' | e] eqn:E; [| discriminate].
  intros _. cbn [negb andb]. now apply (IH kept').
Qed.

(** When the loop ends, [filtered_items] is the upstream list filtered, in
    order: nothing is added, doubled or moved; with a falsy [primeOnly] it is
    the whole list, and with a truthy one every kept item tested eligible. *)
Theorem filter_items_keeps_order (prime_only : json) (items kept : list json) :
  filter_items prime_only items = Ok kept ->
  kept = filter (keeps prime_only) items
  /\ (length kept <= length items)%nat
  /\ (truthy prime_only = false -> kept = items)
  /\ (truthy prime_only = true ->
      forall item, In item kept -> is_prime_eligible item = Ok true).
Proof.
  intros H. pose proof (filter_items_returns _ _ _ H) as Hok.
  rewrite (filter_items_total prime_only items Hok) in H.
  injection H as <-.
  split; [reflexivity |]. split; [apply filter_length_le |]. split.
  - intros Hfalsy. unfold keeps. rewrite Hfalsy. cbn [negb orb].
    clear Hok. induction items as [| i r IH]; [reflexivity |].
    cbn [filter]. now rewrite IH.
  - intros Htruthy item Hin. apply filter_In in Hin as [_ Hk].
    unfold keeps in Hk. rewrite Htruthy in Hk. cbn [negb orb] in Hk.
    destruct (is_prime_eligible item) as [[|] | e]; try discriminate.
    reflexivity.
Qed.

Lemma filter_items_keeps_order_witness :
  Ok [Examples.item "B01" true]
    = Ok (filter (keeps (JBool true)) Examples.three_items)
  /\ (length [Examples.item "B01" true] <= length Examples.three_items)%nat.
Proof.
  destruct (filter_items_keeps_order (JBool true) Examples.three_items
              [Examples.item "B01" true] eq_refl) as [Hfilter [Hlen _]].
  split; [now rewrite <- Hfilter | exact Hlen].
Defined.

(** The first item on which the test raises ends the loop with its
    exception, whatever [primeOnly] is and whatever follows. *)
Theorem filter_items_first_exception (prime_only : json)
    (before after : list json) (bad : json) (e : exn) :
  forallb (fun item => negb (raises item)) before = true ->
  is_prime_eligible bad = Err e ->
  filter_items prime_only (before ++ bad :: after) = Err e.
Proof.
  intros Hbefore Hbad.
  induction before as [| item rest IH].
  - cbn [app]. rewrite filter_items_cons, Hbad. reflexivity.
  - cbn [forallb] in Hbefore. apply andb_true_iff in Hbefore as [Hitem Hrest].
    cbn [app]. rewrite filter_items_cons, (IH Hrest).
    unfold raises in Hitem.
    now destruct (is_prime_eligible item).
Qed.

Lemma filter_items_first_exception_witness :
  filter_items (JBool false)
    ([Examples.item "B01" true] ++ Cases.broken_item :: [Examples.bare_item "B03"])
  = Err TypeError.
Proof.
  apply (filter_items_first_exception (JBool false) [Examples.item "B01" true]
           [Examples.bare_item "B03"] Cases.broken_item TypeError);
    reflexivity.
Defined.

(** Filtering what was kept keeps all of it. *)
Theorem filter_items_idempotent (prime_only : json) (items kept : list json) :
  filter_items prime_only items = Ok kept ->
  filter_items prime_only kept = Ok kept.
Proof.
  intros H. pose proof (filter_items_returns _ _ _ H) as Hok.
  rewrite (filter_items_total prime_only items Hok) in H. injection H as <-.
  assert (Hkept : forallb (fun item => negb (raises item))
                    (filter (keeps prime_only) items) = true).
  { apply forallb_forall. intros item Hin. apply filter_In in Hin as [Hin _].
    rewrite forallb_forall in Hok. now apply Hok. }
  rewrite (filter_items_total prime_only _ Hkept). f_equal.
  clear Hok Hkept. induction items as [| i r IH]; [reflexivity |].
  cbn [filter]. destruct (keeps prime_only i) eqn:E; [| exact IH].
  cbn [filter]. now rewrite E, IH.
Qed.

Lemma filter_items_idempotent_witness :
  filter_items (JBool true) [Examples.item "B01" true]
  = Ok [Examples.item "B01" true].
Proof.
  apply (filter_items_idempotent (JBool true) Examples.three_items). reflexivity.
Defined.

(** Only the first listing counts, and by the truth value of its flag: a
    flag that is a non-empty text or a non-zero number counts as eligible, a
    missing one as not. *)
Theorem eligibility_is_the_truth_value_of_the_first_flag
    (fields offers listing : list (string * json)) (others : list json) :
  lookup "Offers" fields = Some (JDict offers) ->
  lookup "Listings" offers = Some (JList (JDict listing :: others)) ->
  is_prime_eligible (JDict fields)
  = Ok match lookup "IsPrimeEligible" listing with
       | Some flag => truthy flag
       | None => false
       end.
Proof.
  intros Hoffers Hlistings. unfold is_prime_eligible.
  cbn [py_in py_getitem rbind]. rewrite Hoffers. cbn [rbind py_in py_getitem].
  rewrite Hlistings. cbn [rbind truthy py_getitem0 py_get].
  now destruct (lookup "IsPrimeEligible" listing).
Qed.

Lemma eligibility_is_the_truth_value_of_the_first_flag_witness :
  is_prime_eligible Cases.text_flag_item = Ok true.
Proof.
  apply (eligibility_is_the_truth_value_of_the_first_flag
           [("Offers",
              JDict [("Listings", JList [JDict [("IsPrimeEligible", JStr "false")]])])]
           [("Listings", JList [JDict [("IsPrimeEligible", JStr "false")]])]
           [("IsPrimeEligible", JStr "false")] []);
    reflexivity.
Defined.

(** ** The handler, path by path *)

(** With keywords and both keys, the outcome is decided by what the upstream
    does with the one request. *)
Lemma outcome_by_upstream (w : World) (env : Env) (fields : list (string * json))
    (keywords : json) (ak sk : string) :
  lookup "keywords" fields = Some keywords ->
  truthy keywords = true ->
  ACCESS_KEY_ID env = Some ak ->
  SECRET_ACCESS_KEY env = Some sk ->
  fst (run w (search_products env (JDict fields)))
  = match upstream w (upstream_request env ak sk (clock w) keywords) with
    | PostRaised e => fst (run w (on_exception e))
    | PostReturned r =>
        if status_passes (status_code r) then
          match body_json r with
          | Decoded api_response =>
              match filtered_items (prime_only_of fields) api_response with
              | Ok items => Ok (success items)
              | Err e => fst (run w (on_exception e))
              end
          | Undecodable flag => fst (run w (on_exception (JSONDecodeError flag)))
          end
        else fst (run w (on_exception (RequestException (Some r))))
    end.
Proof.
  intros Hkw Htruthy Hak Hsk.
  unfold search_products. cbn [py_get]. rewrite Hkw. cbn [lift bind].
  assert (Hpo : forall (k : json -> prog reply),
             bind (lift match lookup "primeOnly" fields with
                        | Some x => Ok x
                        | None => Ok (JBool true)
                        end) k
             = k (prime_only_of fields))
    by (intros k; unfold prime_only_of; now destruct (lookup "primeOnly" fields)).
  rewrite Hpo, Htruthy. cbn [negb]. cbv zeta.
  rewrite outcome_catch.
  unfold sign_paapi_request. rewrite Hak, Hsk. cbn [bind run].
  rewrite !fst_let. fold (upstream_request env ak sk (clock w) keywords).
  destruct (upstream w (upstream_request env ak sk (clock w) keywords)) as [e | r];
    cbn [bind run fst]; [reflexivity |].
  rewrite outcome_bind. unfold raise_for_status, status_passes.
  destruct ((400 <=? status_code r) && (status_code r <? 600));
    cbn [run fst negb]; [reflexivity |].
  rewrite outcome_bind. unfold response_json.
  destruct (body_json r) as [api_response | flag]; cbn [run fst]; [| reflexivity].
  rewrite outcome_bind, outcome_lift.
  now destruct (filtered_items (prime_only_of fields) api_response).
Qed.

(** The exceptions of lines 146-150 and 144 are the interpreter's own: the
    generic [except Exception] clause answers them. *)
Lemma interpreter_exception_answer (w : World) (e : exn) :
  is_RequestException e = false ->
  is_JSONDecodeError e = false ->
  fst (run w (on_exception e))
  = Ok (ErrorWithException "An unexpected server error occurred: " e, 500).
Proof. intros H1 H2. unfold on_exception. now rewrite H1, H2. Qed.

Lemma rbind_interpreter_exception {A B} (r : result A) (f : A -> result B) (e : exn) :
  (forall e', r = Err e' -> is_RequestException e' = false /\ is_JSONDecodeError e' = false) ->
  (forall a e', f a = Err e' -> is_RequestException e' = false /\ is_JSONDecodeError e' = false) ->
  rbind r f = Err e ->
  is_RequestException e = false /\ is_JSONDecodeError e = false.
Proof.
  intros Hr Hf. destruct r as [a | e0]; cbn [rbind].
  - apply Hf.
  - intros [= <-]. now apply Hr.
Qed.

Lemma py_in_exception (k : string) (v : json) (e : exn) :
  py_in k v = Err e -> is_RequestException e = false /\ is_JSONDecodeError e = false.
Proof. destruct v; cbn; try discriminate; now intros [= <-]. Qed.

Lemma py_getitem_exception (v : json) (k : string) (e : exn) :
  py_getitem v k = Err e -> is_RequestException e = false /\ is_JSONDecodeError e = false.
Proof.
  destruct v as [| | | | | fields]; cbn; try (now intros [= <-]).
  destruct (lookup k fields); [discriminate | now intros [= <-]].
Qed.

Lemma py_getitem0_exception (v : json) (e : exn) :
  py_getitem0 v = Err e -> is_RequestException e = false /\ is_JSONDecodeError e = false.
Proof.
  destruct v as [| | | s | items | fields]; cbn; try (now intros [= <-]).
  - destruct (chars s); [now intros [= <-] | discriminate].
  - destruct items; [now intros [= <-] | discriminate].
Qed.

Lemma py_get_exception (v : json) (k : string) (d : json) (e : exn) :
  py_get v k d = Err e -> is_RequestException e = false /\ is_JSONDecodeError e = false.
Proof.
  destruct v as [| | | | | fields]; cbn; try (now intros [= <-]).
  destruct (lookup k fields); discriminate.
Qed.

Lemma py_iter_exception (v : json) (e : exn) :
  py_iter v = Err e -> is_RequestException e = false /\ is_JSONDecodeError e = false.
Proof. destruct v; cbn; try discriminate; now intros [= <-]. Qed.

Lemma is_prime_eligible_exception (item : json) (e : exn) :
  is_prime_eligible item = Err e ->
  is_RequestException e = false /\ is_JSONDecodeError e = false.
Proof.
  unfold is_prime_eligible.
  apply rbind_interpreter_exception; [apply py_in_exception |].
  intros [|] e'; [| discriminate].
  apply rbind_interpreter_exception; [apply py_getitem_exception |].
  intros offers e''.
  apply rbind_interpreter_exception; [apply py_in_exception |].
  intros [|] e3; [| discriminate].
  apply rbind_interpreter_exception; [apply py_getitem_exception |].
  intros listings e4. destruct (truthy listings); [| discriminate].
  apply rbind_interpreter_exception; [apply py_getitem0_exception |].
  intros first e5.
  apply rbind_interpreter_exception; [apply py_get_exception |].
  intros flag e6. discriminate.
Qed.

Lemma filter_items_exception (prime_only : json) (items : list json) (e : exn) :
  filter_items prime_only items = Err e ->
  is_RequestException e = false /\ is_JSONDecodeError e = false.
Proof.
  induction items as [| item rest IH]; [discriminate |].
  rewrite filter_items_cons.
  destruct (is_prime_eligible item) as [eligible | e0] eqn:E.
  - destruct (filter_items prime_only rest); [discriminate | exact IH].
  - intros [= <-]. now apply (is_prime_eligible_exception item).
Qed.

Lemma filtered_items_exception (prime_only api_response : json) (e : exn) :
  filtered_items prime_only api_response = Err e ->
  is_RequestException e = false /\ is_JSONDecodeError e = false.
Proof.
  unfold filtered_items.
  apply rbind_interpreter_exception; [apply py_in_exception |].
  intros [|] e'; [| discriminate].
  apply rbind_interpreter_exception; [apply py_getitem_exception |].
  intros search_result e''.
  apply rbind_interpreter_exception; [apply py_in_exception |].
  intros [|] e3; [| discriminate].
  apply rbind_interpreter_exception; [apply py_getitem_exception |].
  intros items e4.
  apply rbind_interpreter_exception; [apply py_iter_exception |].
  intros l e5. apply filter_items_exception.
Qed.

Section Ready.

(** A request with keywords, handled with both keys set. *)
Variables (w : World) (env : Env) (fields : list (string * json)).
Variables (keywords : json) (ak sk : string).
Hypothesis Hkeywords : lookup "keywords" fields = Some keywords.
Hypothesis Htruthy : truthy keywords = true.
Hypothesis Haccess : ACCESS_KEY_ID env = Some ak.
Hypothesis Hsecret : SECRET_ACCESS_KEY env = Some sk.

(** The handler reads the clock once and posts exactly one request, whatever
    [primeOnly] is and whatever the upstream answers: to
    [https://<HOST>/paapi5/searchitems], with the [Host] and [X-Amz-Date]
    headers of the signature made for that host and that time. *)
Theorem one_signed_post :
  exists req,
    snd (run w (search_products env (JDict fields))) = [ClockRead; Posted req]
    /\ url req = ("https://" ++ HOST env ++ "/paapi5/searchitems")%string
    /\ header "Host" (request_headers req) = Some (HOST env)
    /\ header "X-Amz-Date" (request_headers req) = Some (amz_date (clock w))
    /\ header "Authorization" (request_headers req)
       = Some (authorization_header (clock w) ak sk (HOST env) (REGION env)
                 SERVICE "/paapi5/searchitems" (payload_of env keywords))
    /\ data req = dumps (payload_of env keywords).
Proof.
  eexists. split.
  - apply (search_products_effects w env fields keywords ak sk); assumption.
  - cbn [url request_headers data]. unfold headers.
    cbn [header String.eqb Ascii.eqb Bool.eqb].
    split; [reflexivity |]. split; [reflexivity |]. split; [reflexivity |].
    split; reflexivity.
Qed.

(** When [requests.post] raises without an answer (no connection, a
    timeout), the handler answers 500 with "Failed to connect to Amazon API
    or unhandled API error: <exception>". *)
Theorem transport_failure_answer (e : exn) :
  upstream w (upstream_request env ak sk (clock w) keywords) = PostRaised e ->
  is_RequestException e = true ->
  response_of e = None ->
  fst (run w (search_products env (JDict fields)))
  = Ok (ErrorWithException
          "Failed to connect to Amazon API or unhandled API error: " e, 500).
Proof.
  intros Hup Hreq Hnone.
  rewrite (outcome_by_upstream w env fields keywords ak sk
             Hkeywords Htruthy Haccess Hsecret), Hup.
  unfold on_exception, on_request_exception. now rewrite Hreq, Hnone.
Qed.

(** When the upstream refuses (status 400 to 599) with a JSON object whose
    [Errors] list starts with an object that has a [Message], the handler
    answers 500 with "Amazon API Error: <Message>". *)
Theorem upstream_error_message_answer (r : http_response)
    (details first : list (string * json)) (others : list json) (message : json) :
  upstream w (upstream_request env ak sk (clock w) keywords) = PostReturned r ->
  status_passes (status_code r) = false ->
  body_json r = Decoded (JDict details) ->
  lookup "Errors" details = Some (JList (JDict first :: others)) ->
  lookup "Message" first = Some message ->
  fst (run w (search_products env (JDict fields)))
  = Ok (ErrorWithValue "Amazon API Error: " message, 500).
Proof.
  intros Hup Hstatus Hbody Herrors Hmessage.
  rewrite (outcome_by_upstream w env fields keywords ak sk
             Hkeywords Htruthy Haccess Hsecret), Hup, Hstatus.
  unfold on_exception, on_request_exception.
  cbn [is_RequestException response_of]. rewrite Hbody.
  cbn [py_in py_getitem lift bind]. rewrite Herrors.
  cbn [lift bind py_getitem0 py_getitem]. rewrite Hmessage. reflexivity.
Qed.

(** When the upstream refuses with a body that is not JSON, or with a JSON
    object without [Errors], the handler answers 500 with "Failed to connect
    to Amazon API or unhandled API error: <exception>". *)
Theorem upstream_error_plain_answer (r : http_response) :
  upstream w (upstream_request env ak sk (clock w) keywords) = PostReturned r ->
  status_passes (status_code r) = false ->
  match body_json r with
  | Decoded (JDict details) => lookup "Errors" details = None
  | Decoded _ => False
  | Undecodable _ => True
  end ->
  fst (run w (search_products env (JDict fields)))
  = Ok (ErrorWithException
          "Failed to connect to Amazon API or unhandled API error: "
          (RequestException (Some r)), 500).
Proof.
  intros Hup Hstatus Hbody.
  rewrite (outcome_by_upstream w env fields keywords ak sk
             Hkeywords Htruthy Haccess Hsecret), Hup, Hstatus.
  unfold on_exception, on_request_exception.
  cbn [is_RequestException response_of].
  destruct (body_json r) as [[| | | | | details] | flag]; try contradiction;
    [| reflexivity].
  cbn [py_in lift bind]. now rewrite Hbody.
Qed.

(** When the upstream refuses with an empty [Errors] list, or with a first
    error that has no [Message], the exception of line 166 is raised inside
    the [except] clause and leaves the handler. *)
Theorem upstream_error_without_message_escapes (r : http_response)
    (details : list (string * json)) :
  upstream w (upstream_request env ak sk (clock w) keywords) = PostReturned r ->
  status_passes (status_code r) = false ->
  body_json r = Decoded (JDict details) ->
  (lookup "Errors" details = Some (JList []) ->
   fst (run w (search_products env (JDict fields))) = Err IndexError)
  /\ (forall (first : list (string * json)) (others : list json),
        lookup "Errors" details = Some (JList (JDict first :: others)) ->
        lookup "Message" first = None ->
        fst (run w (search_products env (JDict fields))) = Err KeyError).
Proof.
  intros Hup Hstatus Hbody.
  rewrite (outcome_by_upstream w env fields keywords ak sk
             Hkeywords Htruthy Haccess Hsecret), Hup, Hstatus.
  unfold on_exception, on_request_exception.
  cbn [is_RequestException response_of]. rewrite Hbody.
  cbn [py_in py_getitem lift bind].
  split.
  - intros Herrors. rewrite Herrors. reflexivity.
  - intros first others Herrors Hmessage. rewrite Herrors.
    cbn [lift bind py_getitem0 py_getitem]. rewrite Hmessage. reflexivity.
Qed.

(** When the upstream answers with a passing status and a body that is not
    JSON, the handler answers 500: with "Invalid JSON response ..." when
    [response.json()] raises the plain [json.JSONDecodeError], and through the
    [RequestException] clause when it raises the one of requests. *)
Theorem undecodable_answer (r : http_response) (flag : bool) :
  upstream w (upstream_request env ak sk (clock w) keywords) = PostReturned r ->
  status_passes (status_code r) = true ->
  body_json r = Undecodable flag ->
  fst (run w (search_products env (JDict fields)))
  = Ok (if flag
        then (ErrorWithException
                "Failed to connect to Amazon API or unhandled API error: "
                (JSONDecodeError true), 500)
        else (Jsonify (JDict [("error",
                JStr "Invalid JSON response from Amazon API. Please check backend logs.")]),
              500)).
Proof.
  intros Hup Hstatus Hbody.
  rewrite (outcome_by_upstream w env fields keywords ak sk
             Hkeywords Htruthy Haccess Hsecret), Hup, Hstatus, Hbody.
  now destruct flag.
Qed.

(** When the answer is not a container ([null], a boolean, a number), or its
    [SearchResult] is not one, the membership test of line 144 raises and the
    handler answers 500 with "An unexpected server error occurred: ...". *)
Theorem search_result_not_a_container_answer (r : http_response)
    (api_response : json) :
  upstream w (upstream_request env ak sk (clock w) keywords) = PostReturned r ->
  status_passes (status_code r) = true ->
  body_json r = Decoded api_response ->
  match api_response with
  | JDict top =>
      match lookup "SearchResult" top with
      | Some search_result => not_a_container search_result = true
      | None => False
      end
  | _ => not_a_container api_response = true
  end ->
  fst (run w (search_products env (JDict fields)))
  = Ok (ErrorWithException "An unexpected server error occurred: " TypeError, 500).
Proof.
  intros Hup Hstatus Hbody Hshape.
  rewrite (outcome_by_upstream w env fields keywords ak sk
             Hkeywords Htruthy Haccess Hsecret), Hup, Hstatus, Hbody.
  unfold filtered_items.
  destruct api_response as [| b | n | s | items | top]; try discriminate;
    try reflexivity.
  cbn [py_in py_getitem rbind].
  destruct (lookup "SearchResult" top) as [search_result |]; [| contradiction].
  cbn [rbind].
  destruct search_result; try discriminate; reflexivity.
Qed.

(** One item on which the test of lines 146-150 raises turns the whole
    answer into a 500, also when [primeOnly] is false: no item is returned. *)
Theorem one_bad_item_fails_the_search (r : http_response)
    (top inner : list (string * json)) (items : list json) (bad : json) :
  upstream w (upstream_request env ak sk (clock w) keywords) = PostReturned r ->
  status_passes (status_code r) = true ->
  body_json r = Decoded (JDict top) ->
  lookup "SearchResult" top = Some (JDict inner) ->
  lookup "Items" inner = Some (JList items) ->
  In bad items ->
  raises bad = true ->
  exists e,
    fst (run w (search_products env (JDict fields)))
    = Ok (ErrorWithException "An unexpected server error occurred: " e, 500).
Proof.
  intros Hup Hstatus Hbody Htop Hinner Hin Hbad.
  rewrite (outcome_by_upstream w env fields keywords ak sk
             Hkeywords Htruthy Haccess Hsecret), Hup, Hstatus, Hbody.
  unfold filtered_items. cbn [py_in py_getitem rbind]. rewrite Htop.
  cbn [rbind py_in py_getitem]. rewrite Hinner. cbn [rbind py_iter].
  destruct (filter_items (prime_only_of fields) items) as [kept | e] eqn:E.
  - apply filter_items_returns in E. rewrite forallb_forall in E.
    specialize (E bad Hin). rewrite Hbad in E. discriminate E.
  - exists e. apply filter_items_exception in E as [E1 E2].
    now apply interpreter_exception_answer.
Qed.

(** The success answer: when no item makes the test raise, the handler
    answers 200 with the upstream items filtered, in upstream order, and
    their number. *)
Theorem success_answer_is_the_filtered_list (r : http_response)
    (top inner : list (string * json)) (items : list json) :
  upstream w (upstream_request env ak sk (clock w) keywords) = PostReturned r ->
  status_passes (status_code r) = true ->
  body_json r = Decoded (JDict top) ->
  lookup "SearchResult" top = Some (JDict inner) ->
  lookup "Items" inner = Some (JList items) ->
  forallb (fun item => negb (raises item)) items = true ->
  fst (run w (search_products env (JDict fields)))
  = Ok (Jsonify
          (JDict [ ("Items", JList (filter (keeps (prime_only_of fields)) items));
                   ("TotalFilteredCount",
                     JInt (Z.of_nat
                             (length (filter (keeps (prime_only_of fields)) items)))) ]),
        200)
  /\ (length (filter (keeps (prime_only_of fields)) items) <= length items)%nat.
Proof.
  intros Hup Hstatus Hbody Htop Hinner Hitems.
  split; [| apply filter_length_le].
  rewrite (outcome_by_upstream w env fields keywords ak sk
             Hkeywords Htruthy Haccess Hsecret), Hup, Hstatus, Hbody.
  unfold filtered_items. cbn [py_in py_getitem rbind]. rewrite Htop.
  cbn [rbind py_in py_getitem]. rewrite Hinner. cbn [rbind py_iter].
  now rewrite (filter_items_total (prime_only_of fields) items Hitems).
Qed.

(** Once the upstream has answered with a passing status, no exception
    leaves the handler: every failure after that point becomes an answer. *)
Theorem answered_request_never_raises (r : http_response) :
  upstream w (upstream_request env ak sk (clock w) keywords) = PostReturned r ->
  status_passes (status_code r) = true ->
  exists (b : body) (status : Z),
    fst (run w (search_products env (JDict fields))) = Ok (b, status)
    /\ (status = 200 \/ status = 500).
Proof.
  intros Hup Hstatus.
  rewrite (outcome_by_upstream w env fields keywords ak sk
             Hkeywords Htruthy Haccess Hsecret), Hup, Hstatus.
  destruct (body_json r) as [api_response | flag].
  - destruct (filtered_items (prime_only_of fields) api_response) as [items | e] eqn:E.
    + eexists. exists 200. split; [reflexivity | now left].
    + apply filtered_items_exception in E as [E1 E2].
      rewrite (interpreter_exception_answer w e E1 E2).
      eexists. exists 500. split; [reflexivity | now right].
  - destruct flag; eexists; exists 500; (split; [reflexivity | now right]).
Qed.

End Ready.

Lemma one_signed_post_witness :
  exists req,
    snd (run Examples.world_down (search_products Examples.env Examples.search_shoes))
      = [ClockRead; Posted req]
    /\ url req = "https://webservices.amazon.in/paapi5/searchitems"
    /\ header "Host" (request_headers req) = Some "webservices.amazon.in"
    /\ header "X-Amz-Date" (request_headers req) = Some "20240101T000000Z".
Proof.
  destruct (one_signed_post Examples.world_down Examples.env
              [("keywords", JStr "shoes")] (JStr "shoes") "AKIDEXAMPLE" "secret"
              eq_refl eq_refl eq_refl eq_refl)
    as (req & Htrace & Hurl & Hhost & Hdate & _).
  exists req. split; [exact Htrace |]. split; [exact Hurl |].
  split; [exact Hhost | exact Hdate].
Defined.

Lemma transport_failure_answer_witness :
  fst (run Examples.world_down (search_products Examples.env Examples.search_shoes))
  = Ok (ErrorWithException
          "Failed to connect to Amazon API or unhandled API error: "
          (RequestException None), 500).
Proof.
  apply (transport_failure_answer Examples.world_down Examples.env
           [("keywords", JStr "shoes")] (JStr "shoes") "AKIDEXAMPLE" "secret"
           eq_refl eq_refl eq_refl eq_refl (RequestException None));
    reflexivity.
Defined.

Lemma upstream_error_message_answer_witness :
  fst (run (Cases.world_with Cases.throttled)
         (search_products Examples.env Examples.search_shoes))
  = Ok (ErrorWithValue "Amazon API Error: "
          (JStr "The request was denied due to request throttling."), 500).
Proof.
  apply (upstream_error_message_answer (Cases.world_with Cases.throttled) Examples.env
           [("keywords", JStr "shoes")] (JStr "shoes") "AKIDEXAMPLE" "secret"
           eq_refl eq_refl eq_refl eq_refl Cases.throttled
           [("Errors",
              JList [JDict [ ("Code", JStr "TooManyRequests");
                             ("Message",
                               JStr "The request was denied due to request throttling.") ]])]
           [ ("Code", JStr "TooManyRequests");
             ("Message", JStr "The request was denied due to request throttling.") ]
           []);
    reflexivity.
Defined.

Lemma upstream_error_plain_answer_witness :
  fst (run (Cases.world_with (Response 503 (Undecodable true)))
         (search_products Examples.env Examples.search_shoes))
  = Ok (ErrorWithException
          "Failed to connect to Amazon API or unhandled API error: "
          (RequestException (Some (Response 503 (Undecodable true)))), 500).
Proof.
  apply (upstream_error_plain_answer
           (Cases.world_with (Response 503 (Undecodable true))) Examples.env
           [("keywords", JStr "shoes")] (JStr "shoes") "AKIDEXAMPLE" "secret"
           eq_refl eq_refl eq_refl eq_refl (Response 503 (Undecodable true)));
    [reflexivity | reflexivity | exact I].
Defined.

Lemma upstream_error_without_message_escapes_witness :
  fst (run (Cases.world_with (Cases.refusal 400 (JDict [("Errors", JList [])])))
         (search_products Examples.env Examples.search_shoes))
  = Err IndexError.
Proof.
  apply (upstream_error_without_message_escapes
           (Cases.world_with (Cases.refusal 400 (JDict [("Errors", JList [])])))
           Examples.env [("keywords", JStr "shoes")] (JStr "shoes")
           "AKIDEXAMPLE" "secret" eq_refl eq_refl eq_refl eq_refl
           (Cases.refusal 400 (JDict [("Errors", JList [])]))
           [("Errors", JList [])] eq_refl eq_refl eq_refl).
  reflexivity.
Defined.

Lemma undecodable_answer_witness :
  fst (run (Cases.world_with (Response 200 (Undecodable false)))
         (search_products Examples.env Examples.search_shoes))
  = Ok (Jsonify (JDict [("error",
          JStr "Invalid JSON response from Amazon API. Please check backend logs.")]),
        500).
Proof.
  apply (undecodable_answer (Cases.world_with (Response 200 (Undecodable false)))
           Examples.env [("keywords", JStr "shoes")] (JStr "shoes")
           "AKIDEXAMPLE" "secret" eq_refl eq_refl eq_refl eq_refl
           (Response 200 (Undecodable false)) false);
    reflexivity.
Defined.

Lemma search_result_not_a_container_answer_witness :
  fst (run (Cases.world_with (Response 200 (Decoded (JDict [("SearchResult", JNull)]))))
         (search_products Examples.env Examples.search_shoes))
  = Ok (ErrorWithException "An unexpected server error occurred: " TypeError, 500).
Proof.
  apply (search_result_not_a_container_answer
           (Cases.world_with (Response 200 (Decoded (JDict [("SearchResult", JNull)]))))
           Examples.env [("keywords", JStr "shoes")] (JStr "shoes")
           "AKIDEXAMPLE" "secret" eq_refl eq_refl eq_refl eq_refl
           (Response 200 (Decoded (JDict [("SearchResult", JNull)])))
           (JDict [("SearchResult", JNull)]));
    reflexivity.
Defined.

Lemma one_bad_item_fails_the_search_witness :
  exists e,
    fst (run (Cases.world_with
                (Response 200
                   (Decoded (JDict [("SearchResult",
                      JDict [("Items",
                        JList [Examples.item "B01" true; Cases.broken_item])])]))))
           (search_products Examples.env
              (JDict [("keywords", JStr "shoes"); ("primeOnly", JBool false)])))
    = Ok (ErrorWithException "An unexpected server error occurred: " e, 500).
Proof.
  apply (one_bad_item_fails_the_search
           (Cases.world_with
              (Response 200
                 (Decoded (JDict [("SearchResult",
                    JDict [("Items",
                      JList [Examples.item "B01" true; Cases.broken_item])])]))))
           Examples.env [("keywords", JStr "shoes"); ("primeOnly", JBool false)]
           (JStr "shoes") "AKIDEXAMPLE" "secret" eq_refl eq_refl eq_refl eq_refl
           (Response 200
              (Decoded (JDict [("SearchResult",
                 JDict [("Items",
                   JList [Examples.item "B01" true; Cases.broken_item])])])))
           [("SearchResult",
              JDict [("Items", JList [Examples.item "B01" true; Cases.broken_item])])]
           [("Items", JList [Examples.item "B01" true; Cases.broken_item])]
           [Examples.item "B01" true; Cases.broken_item] Cases.broken_item);
    try reflexivity.
  right. left. reflexivity.
Defined.

Lemma success_answer_is_the_filtered_list_witness :
  fst (run Examples.world (search_products Examples.env Examples.search_shoes))
  = Ok (Jsonify (JDict [ ("Items", JList [Examples.item "B01" true]);
                         ("TotalFilteredCount", JInt 1) ]), 200).
Proof.
  apply (success_answer_is_the_filtered_list Examples.world Examples.env
           [("keywords", JStr "shoes")] (JStr "shoes") "AKIDEXAMPLE" "secret"
           eq_refl eq_refl eq_refl eq_refl
           (Response 200
              (Decoded (JDict [("SearchResult",
                 JDict [("Items", JList Examples.three_items)])])))
           [("SearchResult", JDict [("Items", JList Examples.three_items)])]
           [("Items", JList Examples.three_items)] Examples.three_items);
    reflexivity.
Defined.

Lemma answered_request_never_raises_witness :
  exists (b : body) (status : Z),
    fst (run (Cases.world_with (Response 204 (Undecodable true)))
           (search_products Examples.env Examples.search_shoes)) = Ok (b, status)
    /\ (status = 200 \/ status = 500).
Proof.
  apply (answered_request_never_raises
           (Cases.world_with (Response 204 (Undecodable true))) Examples.env
           [("keywords", JStr "shoes")] (JStr "shoes") "AKIDEXAMPLE" "secret"
           eq_refl eq_refl eq_refl eq_refl (Response 204 (Undecodable true)));
    reflexivity.
Defined.

(** ** The handler on every input *)

Lemma run_without_a_key (w : World) (env : Env) (fields : list (string * json))
    (keywords : json) :
  lookup "keywords" fields = Some keywords ->
  truthy keywords = true ->
  ACCESS_KEY_ID env = None \/ SECRET_ACCESS_KEY env = None ->
  run w (search_products env (JDict fields))
  = (Ok (ErrorWithException "An unexpected server error occurred: " TypeError, 500),
     [ClockRead]).
Proof.
  intros Hkw Htruthy Hnone.
  unfold search_products. cbn [py_get]. rewrite Hkw. cbn [lift bind].
  assert (Hsign : sign_paapi_request (ACCESS_KEY_ID env) (SECRET_ACCESS_KEY env)
                    (HOST env) (REGION env) SERVICE api_path (payload_of env keywords)
                  = Utcnow (fun _ => Raise TypeError)).
  { unfold sign_paapi_request.
    destruct Hnone as [-> | ->]; [now destruct (SECRET_ACCESS_KEY env) | reflexivity]. }
  destruct (lookup "primeOnly" fields); cbn [lift bind]; rewrite Htruthy;
    cbn [negb]; cbv zeta; rewrite Hsign; reflexivity.
Qed.

(** Without the secret key, or without the access key, a request with
    keywords reads the clock, posts nothing, and is answered 500 with "An
    unexpected server error occurred: ..." for the [TypeError] raised while
    signing. *)
Theorem unset_key_answer (w : World) (env : Env) (fields : list (string * json))
    (keywords : json) :
  lookup "keywords" fields = Some keywords ->
  truthy keywords = true ->
  ACCESS_KEY_ID env = None \/ SECRET_ACCESS_KEY env = None ->
  run w (search_products env (JDict fields))
  = (Ok (ErrorWithException "An unexpected server error occurred: " TypeError, 500),
     [ClockRead])
  /\ posts (snd (run w (search_products env (JDict fields)))) = [].
Proof.
  intros Hkw Htruthy Hnone.
  rewrite (run_without_a_key w env fields keywords Hkw Htruthy Hnone).
  split; reflexivity.
Qed.

Lemma unset_key_answer_witness :
  run Examples.world (search_products Cases.no_secret Examples.search_shoes)
  = (Ok (ErrorWithException "An unexpected server error occurred: " TypeError, 500),
     [ClockRead]).
Proof.
  apply (unset_key_answer Examples.world Cases.no_secret
           [("keywords", JStr "shoes")] (JStr "shoes")); try reflexivity.
  right. reflexivity.
Defined.

(** A body that is not a JSON object (a list, a text, a number, [null]) has
    no [.get]: [AttributeError] leaves the handler at line 113, before any
    check and any effect. *)
Theorem body_that_is_not_an_object_raises (w : World) (env : Env) (data : json) :
  (forall fields, data <> JDict fields) ->
  run w (search_products env data) = (Err AttributeError, []).
Proof.
  intros Hnot. destruct data as [| b | n | s | items | fields]; try reflexivity.
  now elim (Hnot fields).
Qed.

Lemma body_that_is_not_an_object_raises_witness :
  run Examples.world (search_products Examples.env (JList [JStr "shoes"]))
  = (Err AttributeError, []).
Proof.
  apply (body_that_is_not_an_object_raises Examples.world Examples.env
           (JList [JStr "shoes"])).
  discriminate.
Defined.

(** The effects of the handler, on every input and in every world: none; or
    one clock read; or one clock read followed by one post.  It never posts
    twice and never posts before the signature is made. *)
Theorem at_most_one_post (w : World) (env : Env) (data : json) :
  snd (run w (search_products env data)) = []
  \/ snd (run w (search_products env data)) = [ClockRead]
  \/ exists req, snd (run w (search_products env data)) = [ClockRead; Posted req].
Proof.
  destruct data as [| b | n | s | items | fields]; try (left; reflexivity).
  destruct (lookup "keywords" fields) as [keywords |] eqn:Hkw.
  - destruct (truthy keywords) eqn:Htruthy.
    + destruct (ACCESS_KEY_ID env) as [ak |] eqn:Hak.
      * destruct (SECRET_ACCESS_KEY env) as [sk |] eqn:Hsk.
        -- right. right. eexists.
           apply (search_products_effects w env fields keywords ak sk); assumption.
        -- right. left.
           rewrite (run_without_a_key w env fields keywords Hkw Htruthy
                      (or_intror Hsk)). reflexivity.
      * right. left.
        rewrite (run_without_a_key w env fields keywords Hkw Htruthy
                   (or_introl Hak)). reflexivity.
    + left.
      assert (H : match lookup "keywords" fields with
                  | Some k => truthy k = false
                  | None => True
                  end) by now rewrite Hkw.
      unfold search_products. cbn [py_get]. rewrite Hkw.
      destruct (lookup "primeOnly" fields); cbn [lift bind]; rewrite Htruthy;
        reflexivity.
  - left. unfold search_products. cbn [py_get]. rewrite Hkw.
    destruct (lookup "primeOnly" fields); reflexivity.
Qed.

(** What the [try] block returns, when it returns, is the success answer. *)
Lemma try_block_returns (w : World) (env : Env) (keywords prime_only : json)
    (a : reply) :
  fst (run w
         (headers <- sign_paapi_request (ACCESS_KEY_ID env) (SECRET_ACCESS_KEY env)
                       (HOST env) (REGION env) SERVICE api_path
                       (payload_of env keywords) ;;
          posted <- Post (Request (api_endpoint env) headers
                            (dumps (payload_of env keywords))) Ret ;;
          response <- match posted with
                      | PostRaised e => Raise e
                      | PostReturned r => Ret r
                      end ;;
          raise_for_status response ;;
          api_response <- response_json response ;;
          items <- lift (filtered_items prime_only api_response) ;;
          Ret (success items))%prog) = Ok a ->
  exists items, a = success items.
Proof.
  rewrite outcome_bind.
  destruct (fst (run w (sign_paapi_request _ _ _ _ _ _ _))) as [h | e];
    [| discriminate].
  rewrite outcome_bind. cbn [run fst].
  rewrite outcome_bind.
  destruct (upstream w _) as [e | r]; cbn [run fst]; [discriminate |].
  rewrite outcome_bind. unfold raise_for_status.
  destruct ((400 <=? status_code r) && (status_code r <? 600));
    cbn [run fst]; [discriminate |].
  rewrite outcome_bind. unfold response_json.
  destruct (body_json r) as [api_response | flag]; cbn [run fst];
    [| discriminate].
  rewrite outcome_bind, outcome_lift.
  destruct (filtered_items prime_only api_response) as [items | e];
    [| discriminate].
  cbn [run fst]. intros [= <-]. now exists items.
Qed.

(** Every answer of the handler has status 200, 400 or 500; status 400 is
    given only to an object whose [keywords] are missing or falsy, and
    without any effect. *)
Theorem answer_statuses (w : World) (env : Env) (data : json)
    (b : body) (status : Z) :
  fst (run w (search_products env data)) = Ok (b, status) ->
  (status = 200 \/ status = 400 \/ status = 500)
  /\ (status = 400 ->
      snd (run w (search_products env data)) = []
      /\ exists fields,
           data = JDict fields
           /\ match lookup "keywords" fields with
              | Some keywords => truthy keywords = false
              | None => True
              end).
Proof.
  destruct data as [| bb | n | s | items | fields]; try discriminate.
  unfold search_products. cbn [py_get].
  assert (Hget : forall (d : json) (o : option json),
             lift match o with Some x => Ok x | None => Ok d end
             = Ret match o with Some x => x | None => d end :> prog json)
    by (intros d [x |]; reflexivity).
  rewrite !Hget. cbn [bind].
  destruct (truthy match lookup "keywords" fields with
                   | Some x => x
                   | None => JNull
                   end) eqn:Htruthy; cbn [negb].
  - cbv zeta. rewrite outcome_catch.
    match goal with
    | |- match ?o with _ => _ end = _ -> _ => destruct o as [a | e] eqn:E
    end.
    + intros [= ->]. apply try_block_returns in E as [kept E].
      unfold success in E. injection E as _ ->.
      split; [now left | discriminate].
    + intros H. apply on_exception_status in H. subst status.
      split; [right; now right | discriminate].
  - cbn [run fst snd]. intros [= _ <-].
    split; [right; now left |]. intros _. split; [reflexivity |].
    exists fields. split; [reflexivity |].
    now destruct (lookup "keywords" fields).
Qed.

Lemma answer_statuses_witness :
  (500 = 200 \/ 500 = 400 \/ 500 = 500)
  /\ fst (run Examples.world_down (search_products Examples.env Examples.search_shoes))
     = Ok (ErrorWithException
             "Failed to connect to Amazon API or unhandled API error: "
             (RequestException None), 500).
Proof.
  assert (H : fst (run Examples.world_down
                     (search_products Examples.env Examples.search_shoes))
              = Ok (ErrorWithException
                      "Failed to connect to Amazon API or unhandled API error: "
                      (RequestException None), 500)) by reflexivity.
  split; [| exact H].
  exact (proj1 (answer_statuses Examples.world_down Examples.env Examples.search_shoes
                  _ 500 H)).
Defined.

(** ** The two timestamps *)

Lemma below_bound_cases (P : N -> bool) (bound : N) :
  forallb P (map N.of_nat (seq 0 (N.to_nat bound))) = true ->
  forall n : N, (n < bound)%N -> P n = true.
Proof.
  intros H n Hn. rewrite forallb_forall in H. apply H.
  apply in_map_iff. exists (N.to_nat n). split; [apply N2Nat.id |].
  apply in_seq. lia.
Qed.

Lemma zero_pad_2_length (n : N) :
  (n < 100)%N -> String.length (zero_pad 2 n) = 2%nat.
Proof.
  intros Hn. apply Nat.eqb_eq.
  apply (below_bound_cases (fun n => Nat.eqb (String.length (zero_pad 2 n)) 2) 100);
    [vm_compute; reflexivity | exact Hn].
Qed.

Lemma zero_pad_4_length (n : N) :
  (n < 10000)%N -> String.length (zero_pad 4 n) = 4%nat.
Proof.
  intros Hn. apply Nat.eqb_eq.
  apply (below_bound_cases (fun n => Nat.eqb (String.length (zero_pad 4 n)) 4) 10000);
    [vm_compute; reflexivity | exact Hn].
Qed.

Lemma get_after (a : string) (c : ascii) (r : string) :
  get (String.length a) (a ++ String c r) = Some c.
Proof. induction a as [| x a IH]; [reflexivity | exact IH]. Qed.

(** For a time with a four-digit year, [X-Amz-Date] has the sixteen
    characters of [YYYYMMDDTHHMMSSZ] and the date stamp the eight of
    [YYYYMMDD]; the timestamp is the date stamp, a [T], the time of day and a
    [Z], so the date of the credential scope is the date of [X-Amz-Date]. *)
Theorem timestamp_layout (t : datetime) :
  four_digit_time t = true ->
  String.length (amz_date t) = 16%nat
  /\ String.length (date_stamp t) = 8%nat
  /\ amz_date t
     = (date_stamp t ++ "T" ++ zero_pad 2 (hour t) ++ zero_pad 2 (minute t)
          ++ zero_pad 2 (second t) ++ "Z")%string
  /\ get 8 (amz_date t) = Some "T"%char
  /\ get 15 (amz_date t) = Some "Z"%char.
Proof.
  unfold four_digit_time. intros H.
  repeat (apply andb_true_iff in H as [H ?]).
  repeat match goal with
         | E : (_ <=? _)%N = true |- _ => apply N.leb_le in E
         end.
  assert (Hy : String.length (zero_pad 4 (year t)) = 4%nat)
    by (apply zero_pad_4_length; lia).
  assert (Hmo : String.length (zero_pad 2 (month t)) = 2%nat)
    by (apply zero_pad_2_length; lia).
  assert (Hd : String.length (zero_pad 2 (day t)) = 2%nat)
    by (apply zero_pad_2_length; lia).
  assert (Hh : String.length (zero_pad 2 (hour t)) = 2%nat)
    by (apply zero_pad_2_length; lia).
  assert (Hmi : String.length (zero_pad 2 (minute t)) = 2%nat)
    by (apply zero_pad_2_length; lia).
  assert (Hs : String.length (zero_pad 2 (second t)) = 2%nat)
    by (apply zero_pad_2_length; lia).
  assert (Hstamp : String.length (date_stamp t) = 8%nat).
  { rewrite date_stamp_format, !string_length_app, Hy, Hmo, Hd. reflexivity. }
  assert (Hsplit : amz_date t
                   = (date_stamp t ++ "T" ++ zero_pad 2 (hour t)
                        ++ zero_pad 2 (minute t) ++ zero_pad 2 (second t) ++ "Z")%string).
  { rewrite amz_date_format, date_stamp_format, !append_assoc. reflexivity. }
  split; [| split; [exact Hstamp | split; [exact Hsplit |]]].
  - rewrite Hsplit, !string_length_app, Hstamp, Hh, Hmi, Hs. reflexivity.
  - split.
    + rewrite Hsplit, <- Hstamp. apply get_after.
    + assert (Hfront : String.length
                         (date_stamp t ++ "T" ++ zero_pad 2 (hour t)
                            ++ zero_pad 2 (minute t) ++ zero_pad 2 (second t))
                       = 15%nat)
        by (rewrite !string_length_app, Hstamp, Hh, Hmi, Hs; reflexivity).
      rewrite Hsplit, <- Hfront.
      rewrite <- (get_after (date_stamp t ++ "T" ++ zero_pad 2 (hour t)
                               ++ zero_pad 2 (minute t) ++ zero_pad 2 (second t))
                    "Z" "").
      f_equal. now rewrite !append_assoc.
Qed.

Lemma timestamp_layout_witness :
  amz_date Examples.new_year_2024 = "20240101T000000Z"
  /\ String.length (amz_date Examples.new_year_2024) = 16%nat
  /\ String.length (date_stamp Examples.new_year_2024) = 8%nat.
Proof.
  destruct (timestamp_layout Examples.new_year_2024 eq_refl) as [Hlen [Hstamp _]].
  split; [reflexivity |]. split; [exact Hlen | exact Hstamp].
Defined.

(** ** The canonical request tells requests apart *)

Lemma append_inv_head (c a b : string) : (c ++ a = c ++ b)%string -> a = b.
Proof.
  induction c as [| x c IH]; cbn [append]; [trivial |].
  intros [= H]. now apply IH.
Qed.

Lemma append_inv_tail (a b c : string) : (a ++ c = b ++ c)%string -> a = b.
Proof.
  revert b. induction a as [| x a IH]; intros [| y b]; cbn [append]; intros H.
  - reflexivity.
  - apply (f_equal String.length) in H. cbn [String.length] in H.
    rewrite string_length_app in H. lia.
  - apply (f_equal String.length) in H. cbn [String.length] in H.
    rewrite string_length_app in H. lia.
  - injection H as -> H. f_equal. now apply IH.
Qed.

(** At the same time and for the same payload, two requests that differ in
    their path, or in their host, have different canonical requests. *)
Theorem canonical_request_tells_apart (t : datetime) (payload : json)
    (host1 path1 host2 path2 : string) :
  host1 <> host2 /\ path1 = path2 \/ host1 = host2 /\ path1 <> path2 ->
  canonical_request t host1 path1 payload <> canonical_request t host2 path2 payload.
Proof.
  assert (Hshape : forall host path,
             canonical_request t host path payload
             = (("POST" ++ newline) ++ path ++ (newline ++ newline ++ "host:") ++ host
                  ++ (newline ++ "x-amz-date:" ++ amz_date t ++ newline ++ newline
                        ++ "host;x-amz-date" ++ newline
                        ++ payload_hash payload))%string).
  { intros host path.
    unfold canonical_request, canonical_uri, canonical_querystring,
      canonical_headers, signed_headers.
    cbn [join]. rewrite !append_assoc. reflexivity. }
  rewrite !Hshape.
  intros [[Hhost <-] | [<- Hpath]] H.
  - apply append_inv_head, append_inv_head, append_inv_head in H.
    apply append_inv_tail in H. contradiction.
  - apply append_inv_head in H. apply append_inv_tail in H. contradiction.
Qed.

Lemma canonical_request_tells_apart_witness :
  canonical_request Examples.new_year_2024 "webservices.amazon.in"
    "/paapi5/searchitems" Examples.shoes
  <> canonical_request Examples.new_year_2024 "webservices.amazon.in"
       "/paapi5/getitems" Examples.shoes.
Proof.
  apply (canonical_request_tells_apart Examples.new_year_2024 Examples.shoes).
  right. split; [reflexivity | discriminate].
Defined.

(** ** What the module prints at start *)




(** What is printed at start does not depend on the secret key beyond its
    being set: two non-empty secrets give the same lines. *)
Theorem startup_output_hides_the_secret
    (tag access_key : option string) (host region secret1 secret2 : string) :
  secret1 <> "" ->
  secret2 <> "" ->
  Startup.startup_output (MkEnv tag access_key (Some secret1) host region)
  = Startup.startup_output (MkEnv tag access_key (Some secret2) host region).
Proof.
  intros H1 H2.
  unfold Startup.startup_output, Startup.diagnostics, Startup.credentials_missing,
    Startup.secret_key_line.
  cbn [ASSOCIATE_TAG ACCESS_KEY_ID SECRET_ACCESS_KEY HOST REGION Startup.is_set].
  destruct (String.eqb secret1 "") eqn:E1; [apply String.eqb_eq in E1; contradiction |].
  destruct (String.eqb secret2 "") eqn:E2; [apply String.eqb_eq in E2; contradiction |].
  reflexivity.
Qed.

Lemma startup_output_hides_the_secret_witness :
  Startup.startup_output
    (MkEnv (Some "tag-21") (Some "AKIDEXAMPLE") (Some "secret")
       "webservices.amazon.in" "eu-west-1")
  = Startup.startup_output
      (MkEnv (Some "tag-21") (Some "AKIDEXAMPLE") (Some "another secret")
         "webservices.amazon.in" "eu-west-1").
Proof.
  apply (startup_output_hides_the_secret (Some "tag-21") (Some "AKIDEXAMPLE")
           "webservices.amazon.in" "eu-west-1" "secret" "another secret");
    discriminate.
Defined.

(** When the credentials check of line 40 finds nothing missing in the
    environment, the configuration it loaded lets every request with
    keywords through to the upstream: the handler signs and posts, to the
    configured host or to the default one. *)
Theorem checked_environment_reaches_the_upstream (environ : Startup.environ)
    (w : World) (fields : list (string * json)) (keywords : json) :
  Startup.credentials_missing (Startup.load_config environ) = false ->
  lookup "keywords" fields = Some keywords ->
  truthy keywords = true ->
  exists req,
    snd (run w (search_products (Startup.load_config environ) (JDict fields)))
      = [ClockRead; Posted req]
    /\ url req
       = ("https://"
            ++ match Startup.getenv environ "HOST" with
               | Some host => host
               | None => "webservices.amazon.in"
               end
            ++ "/paapi5/searchitems")%string
    /\ Startup.startup_output (Startup.load_config environ)
       = Startup.diagnostics (Startup.load_config environ).
Proof.
  intros Hcheck Hkw Htruthy.
  assert (Hout : Startup.startup_output (Startup.load_config environ)
                 = Startup.diagnostics (Startup.load_config environ)).
  { unfold Startup.startup_output. rewrite Hcheck. apply app_nil_r. }
  unfold Startup.credentials_missing in Hcheck.
  apply negb_false_iff in Hcheck.
  apply andb_true_iff in Hcheck as [Hcheck Hsecret].
  apply andb_true_iff in Hcheck as [_ Haccess].
  destruct (ACCESS_KEY_ID (Startup.load_config environ)) as [ak |] eqn:Hak;
    [| discriminate].
  destruct (SECRET_ACCESS_KEY (Startup.load_config environ)) as [sk |] eqn:Hsk;
    [| discriminate].
  eexists. split; [| split; [| exact Hout]].
  - apply (search_products_effects w _ fields keywords ak sk); assumption.
  - reflexivity.
Qed.

Lemma checked_environment_reaches_the_upstream_witness :
  exists req,
    snd (run Examples.world
           (search_products (Startup.load_config Cases.production)
              Examples.search_shoes))
      = [ClockRead; Posted req]
    /\ url req = "https://webservices.amazon.in/paapi5/searchitems".
Proof.
  destruct (checked_environment_reaches_the_upstream Cases.production Examples.world
              [("keywords", JStr "shoes")] (JStr "shoes") eq_refl eq_refl eq_refl)
    as (req & Htrace & Hurl & _).
  exists req. split; [exact Htrace | exact Hurl].
Defined.

(* ================================================================== *)
(** * The claims that hold on a part of their inputs *)

(** ** The prime filter (C7) *)

(** Where there is no listing to look at, the test of lines 146-150 says
    "not eligible" whenever it says anything. *)
Lemma not_eligible_without_listings (item : json) (eligible : bool) :
  Spec.lacks_listings item = true ->
  is_prime_eligible item = Ok eligible ->
  eligible = false.
Proof.
  unfold Spec.lacks_listings, Spec.listings, is_prime_eligible.
  destruct item as [| b | n | s | l | fields]; cbn [py_in rbind];
    try discriminate.
  - intros _. destruct (is_substring "Offers" s); cbn [py_getitem rbind];
      [discriminate | now intros [= <-]].
  - intros _. destruct (existsb (is_str "Offers") l); cbn [py_getitem rbind];
      [discriminate | now intros [= <-]].
  - cbn [py_getitem]. destruct (lookup "Offers" fields) as [offers |];
      cbn [rbind]; [| now intros _ [= <-]].
    destruct offers as [| b | n | s | l | inner]; cbn [py_in rbind];
      try discriminate.
    + intros _. destruct (is_substring "Listings" s); cbn [py_getitem rbind];
        [discriminate | now intros [= <-]].
    + intros _. destruct (existsb (is_str "Listings") l); cbn [py_getitem rbind];
        [discriminate | now intros [= <-]].
    + cbn [py_getitem]. destruct (lookup "Listings" inner) as [listings |];
        cbn [rbind]; [| now intros _ [= <-]].
      destruct listings as [| b | n | s | [| first rest] | d]; try discriminate.
      intros _. cbn [truthy]. now intros [= <-].
Qed.

(** Where the first listing has a boolean flag, the test returns it. *)
Lemma eligible_is_the_boolean_flag (item : json) :
  Spec.has_boolean_flag item = true ->
  is_prime_eligible item = Ok (Spec.first_listing_is_prime item).
Proof.
  unfold Spec.has_boolean_flag, Spec.first_listing_is_prime, Spec.first_listing_flag,
    Spec.listings, is_prime_eligible.
  destruct item as [| | | | | fields]; try discriminate.
  cbn [py_in py_getitem rbind].
  destruct (lookup "Offers" fields) as [offers |]; [| discriminate].
  destruct offers as [| | | | | inner]; try discriminate.
  cbn [rbind py_in py_getitem].
  destruct (lookup "Listings" inner) as [listings |]; [| discriminate].
  destruct listings as [| | | | [| first rest] |]; try discriminate.
  destruct first as [| | | | | listing]; try discriminate.
  cbn [rbind truthy py_getitem0 py_get].
  destruct (lookup "IsPrimeEligible" listing) as [flag |]; [| discriminate].
  destruct flag as [| b | | | |]; try discriminate.
  intros _. cbn [rbind truthy]. now destruct b.
Qed.

Lemma lacking_is_not_prime (item : json) :
  Spec.lacks_listings item = true -> Spec.first_listing_is_prime item = false.
Proof.
  unfold Spec.lacks_listings, Spec.first_listing_is_prime, Spec.first_listing_flag.
  destruct (Spec.listings item) as [[| | | | [| first rest] |] |];
    try discriminate; reflexivity.
Qed.

Lemma eligible_on_described_items (item : json) :
  Spec.item_as_described item = true ->
  raises item = false ->
  is_prime_eligible item = Ok (Spec.first_listing_is_prime item).
Proof.
  unfold Spec.item_as_described, raises. intros Hdescribed Hreturns.
  apply orb_true_iff in Hdescribed as [Hlacks | Hflag].
  - destruct (is_prime_eligible item) as [eligible | e] eqn:E; [| discriminate].
    rewrite (not_eligible_without_listings item eligible Hlacks E).
    now rewrite (lacking_is_not_prime item Hlacks).
  - now apply eligible_is_the_boolean_flag.
Qed.

Lemma filter_items_on_described_items (prime_only : json) (items : list json) :
  forallb Spec.item_as_described items = true ->
  forallb (fun item => negb (raises item)) items = true ->
  filter_items prime_only items
  = Ok (if truthy prime_only then filter Spec.first_listing_is_prime items else items).
Proof.
  intros Hdescribed Hreturn. rewrite (filter_items_total prime_only items Hreturn).
  f_equal. rewrite forallb_forall in Hdescribed, Hreturn.
  destruct (truthy prime_only) eqn:Hpo.
  - apply filter_ext_in. intros item Hin. unfold keeps. rewrite Hpo.
    rewrite (eligible_on_described_items item (Hdescribed item Hin)); [reflexivity |].
    specialize (Hreturn item Hin). now destruct (raises item).
  - clear Hdescribed Hreturn. unfold keeps. rewrite Hpo. cbn [negb orb].
    induction items as [| i r IH]; [reflexivity |]. cbn [filter]. now rewrite IH.
Qed.

(** An object whose [Offers], when it has one, is an object never makes the
    test raise if it is as the property describes. *)
Lemma described_object_does_not_raise (fields : list (string * json)) :
  match lookup "Offers" fields with
  | None | Some (JDict _) => True
  | Some _ => False
  end ->
  Spec.item_as_described (JDict fields) = true ->
  raises (JDict fields) = false.
Proof.
  intros Hoffers Hdescribed.
  apply orb_true_iff in Hdescribed as [Hlacks | Hflag].
  - revert Hlacks. unfold Spec.lacks_listings, Spec.listings, raises, is_prime_eligible.
    cbn [py_in py_getitem rbind].
    destruct (lookup "Offers" fields) as [[| | | | | inner] |];
      try contradiction; [| reflexivity].
    cbn [rbind py_in py_getitem].
    destruct (lookup "Listings" inner) as [[| | | | [| first rest] |] |];
      try discriminate; reflexivity.
  - unfold raises. now rewrite (eligible_is_the_boolean_flag _ Hflag).
Qed.

(** C7.  On items that lack an [Offers.Listings] entry or have a boolean
    [IsPrimeEligible] on their first listing, and on which the membership
    tests of line 147 raise no exception: with [primeOnly] true the loop
    keeps exactly the items whose first listing is prime eligible, in order,
    so none without listings; with [primeOnly] false it keeps them all.  The
    same holds from the upstream answer that carries the items. *)
Theorem prime_filter_on_described_items (items : list json) :
  forallb Spec.item_as_described items = true ->
  forallb (fun item => negb (raises item)) items = true ->
  filter_items (JBool true) items = Ok (filter Spec.first_listing_is_prime items)
  /\ filter_items (JBool false) items = Ok items
  /\ filtered_items (JBool true)
       (JDict [("SearchResult", JDict [("Items", JList items)])])
     = Ok (filter Spec.first_listing_is_prime items)
  /\ filtered_items (JBool false)
       (JDict [("SearchResult", JDict [("Items", JList items)])])
     = Ok items
  /\ (forall item,
        In item items ->
        Spec.lacks_listings item = true ->
        ~ In item (filter Spec.first_listing_is_prime items)).
Proof.
  intros Hdescribed Hreturn.
  pose proof (filter_items_on_described_items (JBool true) items Hdescribed Hreturn)
    as Ht.
  pose proof (filter_items_on_described_items (JBool false) items Hdescribed Hreturn)
    as Hf.
  cbn [truthy] in Ht, Hf.
  split; [exact Ht |]. split; [exact Hf |].
  split; [| split].
  - unfold filtered_items.
    cbn [py_in py_getitem py_iter lookup String.eqb Ascii.eqb Bool.eqb rbind].
    exact Ht.
  - unfold filtered_items.
    cbn [py_in py_getitem py_iter lookup String.eqb Ascii.eqb Bool.eqb rbind].
    exact Hf.
  - intros item _ Hlacks Hkept. apply filter_In in Hkept as [_ Hprime].
    rewrite (lacking_is_not_prime item Hlacks) in Hprime. discriminate.
Qed.

Lemma prime_filter_on_described_items_witness :
  forallb Spec.item_as_described Examples.three_items = true
  /\ forallb (fun item => negb (raises item)) Examples.three_items = true
  /\ filter_items (JBool true) Examples.three_items = Ok [Examples.item "B01" true]
  /\ filter_items (JBool false) Examples.three_items = Ok Examples.three_items.
Proof.
  split; [reflexivity |]. split; [reflexivity |].
  pose proof (prime_filter_on_described_items Examples.three_items eq_refl eq_refl)
    as [Ht [Hf _]].
  split; [exact Ht | exact Hf].
Defined.

(** An item whose [Offers] is [null] lacks an [Offers.Listings] entry, yet
    with [primeOnly] false it is not kept: the membership test of line 147
    raises [TypeError], the loop ends, and the handler answers 500 with no
    item at all. *)
Lemma prime_filter_fails_on_null_offers :
  Spec.item_as_described Cases.broken_item = true
  /\ Spec.listings Cases.broken_item = None
  /\ filter_items (JBool false) [Cases.broken_item] = Err TypeError
  /\ filter_items (JBool false) [Cases.broken_item] <> Ok [Cases.broken_item]
  /\ fst (run (Cases.world_with
                 (Response 200
                    (Decoded (JDict [("SearchResult",
                       JDict [("Items", JList [Cases.broken_item])])]))))
            (search_products Examples.env
               (JDict [("keywords", JStr "shoes"); ("primeOnly", JBool false)])))
     = Ok (ErrorWithException "An unexpected server error occurred: " TypeError, 500).
Proof.
  split; [reflexivity |]. split; [reflexivity |]. split; [reflexivity |].
  split; [discriminate |]. vm_compute. reflexivity.
Qed.

(** ** The keywords check (C8) *)

(** The bodies [[]] and [null] have no [keywords] field, yet they are not
    answered 400: [data.get] raises [AttributeError] at line 113, outside
    the [try] block, and the exception leaves the handler. *)
Lemma keywords_check_fails_on_a_body_that_is_no_object :
  run Examples.world (search_products Examples.env (JList []))
    = (Err AttributeError, [])
  /\ run Examples.world (search_products Examples.env JNull)
    = (Err AttributeError, [])
  /\ fst (run Examples.world (search_products Examples.env (JList [])))
     <> Ok (Jsonify (JDict [("error", JStr "Keywords are required.")]), 400).
Proof.
  split; [reflexivity |]. split; [reflexivity |]. cbn. discriminate.
Qed.

(** ** The answer without items (C10) *)

(** Where the key is lacking and lines 144 and 145 raise nothing, the loop
    has nothing to run over.  A text or a list in the place of an object
    passes the membership test only to fail at the subscription. *)
Lemma filtered_items_without_key (prime_only api_response : json) :
  Spec.lacks_items_key api_response = true ->
  items_test_raises api_response = false ->
  filtered_items prime_only api_response = Ok [].
Proof.
  unfold Spec.lacks_items_key, items_test_raises, items_test, filtered_items.
  destruct api_response as [| b | n | s | l | fields]; cbn [py_in rbind];
    try discriminate.
  - intros _. destruct (is_substring "SearchResult" s); cbn [py_getitem rbind];
      [discriminate | reflexivity].
  - intros _. destruct (existsb (is_str "SearchResult") l); cbn [py_getitem rbind];
      [discriminate | reflexivity].
  - cbn [py_getitem]. destruct (lookup "SearchResult" fields) as [search_result |];
      cbn [rbind]; [| reflexivity].
    destruct search_result as [| b | n | s | l | inner]; cbn [py_in rbind];
      try discriminate.
    + intros _. destruct (is_substring "Items" s); cbn [py_getitem rbind];
        [discriminate | reflexivity].
    + intros _. destruct (existsb (is_str "Items") l); cbn [py_getitem rbind];
        [discriminate | reflexivity].
    + destruct (lookup "Items" inner); [discriminate | reflexivity].
Qed.

(** C10.  Whatever the upstream answers, an answer of the handler with status
    200 is [{"Items": items, "TotalFilteredCount": len(items)}]; and when the
    upstream answer lacks a [SearchResult] key or a [SearchResult.Items] key
    and lines 144 and 145 raise no exception on it, the handler answers with
    no item and a count of zero, status 200. *)
Theorem total_filtered_count_and_missing_items :
  (forall (w : World) (env : Env) (data : json) (b : body),
      fst (run w (search_products env data)) = Ok (b, 200) ->
      exists items : list json,
        b = Jsonify (JDict [ ("Items", JList items);
                             ("TotalFilteredCount", JInt (Z.of_nat (length items))) ]))
  /\ (forall (w : World) (env : Env) (fields : list (string * json))
             (keywords : json) (ak sk : string) (r : http_response)
             (api_response : json),
      lookup "keywords" fields = Some keywords ->
      truthy keywords = true ->
      ACCESS_KEY_ID env = Some ak ->
      SECRET_ACCESS_KEY env = Some sk ->
      (forall req, upstream w req = PostReturned r) ->
      (400 <=? status_code r) && (status_code r <? 600) = false ->
      body_json r = Decoded api_response ->
      Spec.lacks_items_key api_response = true ->
      items_test_raises api_response = false ->
      fst (run w (search_products env (JDict fields)))
      = Ok (Jsonify (JDict [("Items", JList []); ("TotalFilteredCount", JInt 0)]), 200)).
Proof.
  split.
  - intros w env data b. unfold search_products.
    rewrite outcome_bind, outcome_lift.
    destruct (py_get data "keywords" JNull) as [keywords | e]; [| discriminate].
    rewrite outcome_bind, outcome_lift.
    destruct (py_get data "primeOnly" (JBool true)) as [prime_only | e];
      [| discriminate].
    destruct (negb (truthy keywords)); [discriminate |].
    cbv zeta. rewrite outcome_catch.
    match goal with
    | |- match ?o with _ => _ end = _ -> _ => destruct o as [a | e] eqn:E
    end.
    + intros [= ->]. apply try_block_returns in E as [items E].
      unfold success in E. injection E as ->. now exists items.
    + intros H. apply on_exception_status in H. discriminate H.
  - intros w env fields keywords ak sk r api_response
      Hkw Htruthy Hak Hsk Hup Hstatus Hbody Hlacks Hreturns.
    rewrite (outcome_by_upstream w env fields keywords ak sk Hkw Htruthy Hak Hsk).
    rewrite Hup. unfold status_passes. rewrite Hstatus. cbn [negb]. rewrite Hbody.
    now rewrite (filtered_items_without_key _ api_response Hlacks Hreturns).
Qed.

Lemma total_filtered_count_and_missing_items_witness :
  (exists items : list json,
      Jsonify (JDict [ ("Items", JList [Examples.item "B01" true]);
                       ("TotalFilteredCount", JInt 1) ])
      = Jsonify (JDict [ ("Items", JList items);
                         ("TotalFilteredCount", JInt (Z.of_nat (length items))) ]))
  /\ fst (run Examples.world_empty (search_products Examples.env Examples.search_shoes))
     = Ok (Jsonify (JDict [("Items", JList []); ("TotalFilteredCount", JInt 0)]), 200)
  /\ fst (run (Cases.world_with
                 (Response 200 (Decoded (JDict [("SearchResult", JList [])]))))
            (search_products Examples.env Examples.search_shoes))
     = Ok (Jsonify (JDict [("Items", JList []); ("TotalFilteredCount", JInt 0)]), 200).
Proof.
  destruct total_filtered_count_and_missing_items as [Hcount Hempty].
  split; [| split].
  - apply (Hcount Examples.world Examples.env Examples.search_shoes).
    vm_compute. reflexivity.
  - apply (Hempty Examples.world_empty Examples.env [("keywords", JStr "shoes")]
             (JStr "shoes") "AKIDEXAMPLE" "secret"
             (Response 200 (Decoded (JDict [("Errors", JList [])])))
             (JDict [("Errors", JList [])]));
      reflexivity.
  - apply (Hempty (Cases.world_with
                     (Response 200 (Decoded (JDict [("SearchResult", JList [])]))))
             Examples.env [("keywords", JStr "shoes")]
             (JStr "shoes") "AKIDEXAMPLE" "secret"
             (Response 200 (Decoded (JDict [("SearchResult", JList [])])))
             (JDict [("SearchResult", JList [])]));
      reflexivity.
Defined.

(** An upstream answer whose [SearchResult] is [null] lacks the
    [SearchResult.Items] key, yet the handler does not answer with an empty
    list: ['Items' in None] raises [TypeError] at line 144 and the answer is
    the 500 of the generic [except] clause. *)
Lemma missing_items_fails_on_null_search_result :
  Spec.lacks_items_key (JDict [("SearchResult", JNull)]) = true
  /\ fst (run (Cases.world_with
                 (Response 200 (Decoded (JDict [("SearchResult", JNull)]))))
            (search_products Examples.env Examples.search_shoes))
     = Ok (ErrorWithException "An unexpected server error occurred: " TypeError, 500)
  /\ fst (run (Cases.world_with
                 (Response 200 (Decoded (JDict [("SearchResult", JNull)]))))
            (search_products Examples.env Examples.search_shoes))
     <> Ok (Jsonify (JDict [("Items", JList []); ("TotalFilteredCount", JInt 0)]), 200).
Proof.
  split; [reflexivity |].
  assert (E : fst (run (Cases.world_with
                          (Response 200 (Decoded (JDict [("SearchResult", JNull)]))))
                     (search_products Examples.env Examples.search_shoes))
              = Ok (ErrorWithException "An unexpected server error occurred: "
                      TypeError, 500))
    by (vm_compute; reflexivity).
  split; [exact E |]. rewrite E. discriminate.
Qed.
